(** * CartGenie: cart capture and analysis orchestration

    A shallow embedding of the browser extension's two scripts:
    - [extension/content.js]: platform detection, button injection with
      bounded retries, cart scraping, currency detection;
    - [extension/background.js]: the per-tab analysis state kept in three
      [Map]s, the asynchronous [analyzeCart], the message listener and the
      tab-update listener.

    JavaScript strings are sequences of UTF-16 code units, numbers are
    IEEE-754 binary64 values, [Map]s are finite maps keyed by the tab id. *)

From Stdlib Require Import ZArith NArith List Bool String Ascii Lia.
From Stdlib Require Import Floats.SpecFloat.
From stdpp Require Import base option list gmap.

Open Scope Z_scope.

(* ===================================================================== *)
(** * Part I: the program                                                 *)
(* ===================================================================== *)

(** ** JavaScript strings *)

(** A string is the list of its UTF-16 code units. *)
Abbreviation jsstring := (list N).

(** Code units of a literal made of ASCII characters only. *)
Fixpoint str (s : string) : jsstring :=
  match s with
  | EmptyString => []
  | String c s' => N_of_ascii c :: str s'
  end.

(** [pre] is a prefix of [s] ([String.prototype.startsWith]). *)
Fixpoint startsWith (s pre : jsstring) {struct pre} : bool :=
  match pre, s with
  | [], _ => true
  | _ :: _, [] => false
  | p :: pre', c :: s' => N.eqb p c && startsWith s' pre'
  end.

(** [s.includes(needle)]: [needle] occurs somewhere in [s]. *)
Fixpoint includes (s needle : jsstring) : bool :=
  startsWith s needle ||
  match s with
  | [] => false
  | _ :: s' => includes s' needle
  end.

(** Decimal digits of a natural number, as [String(n)] prints it. *)
Fixpoint uint_codes (d : Decimal.uint) : jsstring :=
  match d with
  | Decimal.Nil => []
  | Decimal.D0 d => 48%N :: uint_codes d
  | Decimal.D1 d => 49%N :: uint_codes d
  | Decimal.D2 d => 50%N :: uint_codes d
  | Decimal.D3 d => 51%N :: uint_codes d
  | Decimal.D4 d => 52%N :: uint_codes d
  | Decimal.D5 d => 53%N :: uint_codes d
  | Decimal.D6 d => 54%N :: uint_codes d
  | Decimal.D7 d => 55%N :: uint_codes d
  | Decimal.D8 d => 56%N :: uint_codes d
  | Decimal.D9 d => 57%N :: uint_codes d
  end.

Definition Number_toString (n : N) : jsstring := uint_codes (N.to_uint n).

(** ** JavaScript numbers: IEEE-754 binary64 *)

Abbreviation number := spec_float.

Definition isNaN (x : number) : bool :=
  match x with S754_nan => true | _ => false end.

(** [x > 0] *)
Definition gt_zero (x : number) : bool := SFltb (S754_zero false) x.

Definition isFinite (x : number) : bool :=
  match x with
  | S754_zero _ | S754_finite _ _ _ => true
  | S754_infinity _ | S754_nan => false
  end.

(** ** Strings: white space, trimming, the price clean-up *)

(** The code units matched by [\s] and removed by [trim()]: ECMAScript
    WhiteSpace and LineTerminator. *)
Definition isWhiteSpace (c : N) : bool :=
  match c with
  | 9 | 10 | 11 | 12 | 13 | 32 | 160 | 5760
  | 8232 | 8233 | 8239 | 8287 | 12288 | 65279 => true
  | _ => (8192 <=? c) && (c <=? 8202)
  end%N.

Fixpoint trimStart (s : jsstring) : jsstring :=
  match s with
  | [] => []
  | c :: s' => if isWhiteSpace c then trimStart s' else s
  end.

Definition trimEnd (s : jsstring) : jsstring := rev (trimStart (rev s)).

Definition trim (s : jsstring) : jsstring := trimEnd (trimStart s).

Definition rupee : N := 8377.   (* U+20B9 *)
Definition dollar : N := 36.
Definition comma : N := 44.

(** [s.replace(/[₹$,\s]/g, "")] *)
Definition stripPriceChars (s : jsstring) : jsstring :=
  filter (λ c, negb (N.eqb c rupee || N.eqb c dollar || N.eqb c comma || isWhiteSpace c)) s.

(** ** [parseFloat] *)

Definition isDigit (c : N) : bool := ((48 <=? c) && (c <=? 57))%N.

(** The longest run of decimal digits at the front, and the rest. *)
Fixpoint spanDigits (s : jsstring) : jsstring * jsstring :=
  match s with
  | [] => ([], [])
  | c :: s' =>
      if isDigit c then let '(ds, r) := spanDigits s' in (c :: ds, r)
      else ([], s)
  end.

Definition digitsValue (ds : jsstring) : Z :=
  fold_left (λ acc c, 10 * acc + (Z.of_N c - 48)) ds 0.

(** An optional sign at the front. *)
Definition takeSign (s : jsstring) : bool * jsstring :=
  match s with
  | 43%N :: r => (false, r)     (* + *)
  | 45%N :: r => (true, r)      (* - *)
  | _ => (false, s)
  end.

(** The value of an ExponentPart at the front of [s], [0] when there is
    none ([e] or [E], an optional sign, at least one digit). *)
Definition exponentPart (s : jsstring) : Z :=
  match s with
  | c :: r =>
      if N.eqb c 101 || N.eqb c 69 then
        let '(neg, r') := takeSign r in
        let '(ds, _) := spanDigits r' in
        match ds with
        | [] => 0
        | _ => if neg then - digitsValue ds else digitsValue ds
        end
      else 0
  | [] => 0
  end.

(** The binary64 value nearest to [m * 10^e] (ties to even), [0 <= m]. *)
Definition decimalToNumber (neg : bool) (m e : Z) : number :=
  if m =? 0 then S754_zero neg
  else if 0 <=? e then
    binary_normalize 53 1024 (if neg then - (m * 10 ^ e) else m * 10 ^ e) 0 neg
  else
    let d := 10 ^ (- e) in
    let n := m * 2 ^ 1074 in
    let q := n / d in
    let r := n mod d in
    let loc := if r =? 0 then loc_Exact else loc_Inexact (2 * r ?= d) in
    binary_round_aux 53 1024 neg q (-1074) loc.

(** [parseFloat(s)]: skip leading white space, read the longest prefix
    that is a StrDecimalLiteral, [NaN] when there is none.  The value is
    the correctly rounded one, as V8 computes it (ECMAScript lets an
    implementation approximate a literal of more than 20 significant
    digits). *)
Definition parseFloat (s : jsstring) : number :=
  let '(neg, t) := takeSign (trimStart s) in
  if startsWith t (str "Infinity") then S754_infinity neg
  else
    let '(ip, r1) := spanDigits t in
    let '(fp, r2) :=
      match r1 with
      | 46%N :: r => spanDigits r     (* . *)
      | _ => ([], r1)
      end in
    match ip, fp with
    | [], [] => S754_nan
    | _, _ =>
        decimalToNumber neg (digitsValue (ip ++ fp))
          (exponentPart r2 - Z.of_nat (length fp))
    end.

(** The number a JavaScript integer literal denotes. *)
Definition numberOfZ (z : Z) : number := binary_normalize 53 1024 z 0 false.

(** ** Values exchanged with the optimization service *)

(** What [response.json()] can resolve to. *)
#[warnings="-register-all"]
Inductive json :=
  | JNull
  | JBool (b : bool)
  | JNumber (x : number)
  | JString (s : jsstring)
  | JArray (l : list json)
  | JObject (fields : list (jsstring * json)).

(** An item of the cart, as [scrapeCartItems] pushes it. *)
Record CartItem := {
  productTitle : jsstring;
  price : number;
  quantity : N;
  currency : jsstring
}.

(** The payload of an [ANALYZE_CART] message. *)
Record CartData := {
  sourceRetailer : jsstring;
  items : list CartItem
}.

Record UserContext := {
  country : jsstring;
  postalCode : jsstring
}.

(** The body posted to [API_ENDPOINT]. *)
Record Payload := {
  p_userContext : UserContext;
  p_sourceRetailer : jsstring;
  p_items : list CartItem
}.

(** ** The page: a DOM tree *)

Abbreviation Attrs := (list (jsstring * jsstring)).

(** An element with its local name (lower case), attributes and children,
    or a text node. *)
#[warnings="-register-all"]
Inductive Node :=
  | Element (tag : jsstring) (attrs : Attrs) (children : list Node)
  | Text (data : jsstring).

(** [getAttribute] *)
Fixpoint getAttribute (attrs : Attrs) (name : jsstring) : option jsstring :=
  match attrs with
  | [] => None
  | (n, v) :: attrs' => if decide (n = name) then Some v else getAttribute attrs' name
  end.

(** The white space that separates class names. *)
Definition isAsciiWhitespace (c : N) : bool :=
  match c with
  | 9 | 10 | 12 | 13 | 32 => true
  | _ => false
  end%N.

(** Split at white space; [cur] is the token being read, reversed. *)
Fixpoint splitTokens (cur : jsstring) (s : jsstring) : list jsstring :=
  match s with
  | [] => match cur with [] => [] | _ => [rev cur] end
  | c :: s' =>
      if isAsciiWhitespace c then
        match cur with
        | [] => splitTokens [] s'
        | _ => rev cur :: splitTokens [] s'
        end
      else splitTokens (c :: cur) s'
  end.

Definition classList (attrs : Attrs) : list jsstring :=
  match getAttribute attrs (str "class") with
  | Some v => splitTokens [] v
  | None => []
  end.

(** [textContent] of a node: the text of its descendants, in tree order. *)
Fixpoint textContent (n : Node) : jsstring :=
  match n with
  | Text data => data
  | Element _ _ children =>
      (fix go (ks : list Node) : jsstring :=
         match ks with
         | [] => []
         | k :: ks' => textContent k ++ go ks'
         end) children
  end.

Global Arguments textContent : simpl never.

(** ** CSS selectors, as far as the scripts use them *)

Inductive Simple :=
  | Tag (name : jsstring)                (* span *)
  | Class (c : jsstring)                 (* .c *)
  | Id (i : jsstring)                    (* #i *)
  | AttrHas (a : jsstring)               (* [a] *)
  | AttrEq (a v : jsstring)              (* [a='v'] *)
  | AttrContains (a v : jsstring).       (* [a*='v'] *)

(** A compound selector is a conjunction of simple ones; a complex selector
    is a chain of compounds joined by the descendant combinator, outermost
    first; a selector list is a comma-separated disjunction. *)
Abbreviation Compound := (list Simple).
Abbreviation Complex := (list Compound).
Abbreviation Selector := (list Complex).

Definition matchesSimple (tag : jsstring) (attrs : Attrs) (s : Simple) : bool :=
  match s with
  | Tag name => bool_decide (tag = name)
  | Class c => bool_decide (c ∈ classList attrs)
  | Id i => bool_decide (getAttribute attrs (str "id") = Some i)
  | AttrHas a => bool_decide (is_Some (getAttribute attrs a))
  | AttrEq a v => bool_decide (getAttribute attrs a = Some v)
  | AttrContains a v =>
      match getAttribute attrs a with
      | Some w => negb (bool_decide (v = [])) && includes w v
      | None => false
      end
  end.

Definition matchesCompound (e : jsstring * Attrs) (c : Compound) : bool :=
  forallb (matchesSimple e.1 e.2) c.

(** [outer] lists the compounds still to be found among the ancestors,
    innermost first; [ancestors] lists the ancestors, nearest first. *)
Fixpoint matchesAncestors (outer : list Compound) (ancestors : list (jsstring * Attrs))
    : bool :=
  match outer with
  | [] => true
  | c :: outer' =>
      (fix search (ancs : list (jsstring * Attrs)) : bool :=
         match ancs with
         | [] => false
         | a :: ancs' =>
             (matchesCompound a c && matchesAncestors outer' ancs') || search ancs'
         end) ancestors
  end.

Definition matchesComplex (e : jsstring * Attrs) (ancestors : list (jsstring * Attrs))
    (cx : Complex) : bool :=
  match rev cx with
  | [] => false
  | subject :: outer => matchesCompound e subject && matchesAncestors outer ancestors
  end.

(** An element of the page: where it is (child indices from the root), its
    ancestors (nearest first) and the element itself. *)
Record Located := {
  loc_path : list nat;
  loc_ancestors : list (jsstring * Attrs);
  loc_tag : jsstring;
  loc_attrs : Attrs;
  loc_children : list Node
}.

Definition loc_node (l : Located) : Node :=
  Element (loc_tag l) (loc_attrs l) (loc_children l).

(** [element.matches(selector)] *)
Definition matchesSelector (sel : Selector) (l : Located) : bool :=
  existsb (matchesComplex (loc_tag l, loc_attrs l) (loc_ancestors l)) sel.

(** The elements of a subtree in tree order, the root of the subtree first. *)
Fixpoint elementsOf (path : list nat) (ancestors : list (jsstring * Attrs)) (n : Node)
    : list Located :=
  match n with
  | Text _ => []
  | Element tag attrs children =>
      {| loc_path := path; loc_ancestors := ancestors;
         loc_tag := tag; loc_attrs := attrs; loc_children := children |}
      :: (fix go (i : nat) (ks : list Node) : list Located :=
            match ks with
            | [] => []
            | k :: ks' =>
                elementsOf (path ++ [i]) ((tag, attrs) :: ancestors) k ++ go (S i) ks'
            end) 0%nat children
  end.

(** The document is the tree under its root element. *)
Definition document_querySelectorAll (sel : Selector) (doc : Node) : list Located :=
  filter (λ l, matchesSelector sel l = true) (elementsOf [] [] doc).

Definition document_querySelector (sel : Selector) (doc : Node) : option Located :=
  head (document_querySelectorAll sel doc).

(** [element.querySelector(sel)]: the first descendant of the element that
    matches; the selector may use ancestors outside the element. *)
Definition querySelector (sel : Selector) (l : Located) : option Located :=
  head (filter (λ d, matchesSelector sel d = true)
          (tail (elementsOf (loc_path l) (loc_ancestors l) (loc_node l)))).

(** The element children of an element, with their positions. *)
Fixpoint childElements (i : nat) (parent : Located) (ks : list Node) : list Located :=
  match ks with
  | [] => []
  | Element t a c :: ks' =>
      {| loc_path := loc_path parent ++ [i];
         loc_ancestors := (loc_tag parent, loc_attrs parent) :: loc_ancestors parent;
         loc_tag := t; loc_attrs := a; loc_children := c |}
      :: childElements (S i) parent ks'
  | Text _ :: ks' => childElements (S i) parent ks'
  end.

(** [document.body]: the first [body] or [frameset] child of the [html]
    root, [None] for [null]. *)
Definition document_body (doc : Node) : option Located :=
  match doc with
  | Element tag attrs children =>
      if decide (tag = str "html") then
        head (filter (λ l, loc_tag l = str "body" ∨ loc_tag l = str "frameset")
                (childElements 0
                   {| loc_path := []; loc_ancestors := [];
                      loc_tag := tag; loc_attrs := attrs; loc_children := children |}
                   children))
      else None
  | Text _ => None
  end.

(** [target.appendChild(child)] for the element at [path]. *)
Fixpoint appendChildAt (path : list nat) (child : Node) (n : Node) : Node :=
  match n with
  | Text _ => n
  | Element tag attrs children =>
      match path with
      | [] => Element tag attrs (children ++ [child])
      | i :: path' =>
          Element tag attrs
            ((fix at_index (i : nat) (ks : list Node) {struct ks} : list Node :=
                match ks with
                | [] => []
                | k :: ks' =>
                    match i with
                    | O => appendChildAt path' child k :: ks'
                    | S i' => k :: at_index i' ks'
                    end
                end) i children)
      end
  end.

(** ** content.js *)

Record Selectors := {
  sel_container : Selector;
  sel_title : Selector;
  sel_price : Selector
}.

(** [this.currentPlatform] *)
Record Platform := {
  platform_name : jsstring;
  platform_id : jsstring;
  platform_color : jsstring;
  platform_selectors : Selectors
}.

(** Shorthands for writing the selectors of the platforms. *)
Definition cls (c : string) : Simple := Class (str c).
Definition tg (t : string) : Simple := Tag (str t).
Definition attr_eq (a v : string) : Simple := AttrEq (str a) (str v).
Definition attr_contains (a v : string) : Simple := AttrContains (str a) (str v).

Definition amazon : Platform := {|
  platform_name := str "Amazon";
  platform_id := str "amazon";
  platform_color := str "#ff9900";
  platform_selectors := {|
    (* [data-name='Active Items'] [data-item-index], .sc-list-item-content,
       #sc-active-cart .sc-list-item *)
    sel_container :=
      [ [[attr_eq "data-name" "Active Items"]; [AttrHas (str "data-item-index")]];
        [[cls "sc-list-item-content"]];
        [[Id (str "sc-active-cart")]; [cls "sc-list-item"]] ];
    (* [data-cy='item-title'] span, .sc-product-title span, .sc-product-title a *)
    sel_title :=
      [ [[attr_eq "data-cy" "item-title"]; [tg "span"]];
        [[cls "sc-product-title"]; [tg "span"]];
        [[cls "sc-product-title"]; [tg "a"]] ];
    (* .sc-product-price .a-offscreen, .sc-product-price .sc-price,
       .a-price .a-offscreen *)
    sel_price :=
      [ [[cls "sc-product-price"]; [cls "a-offscreen"]];
        [[cls "sc-product-price"]; [cls "sc-price"]];
        [[cls "a-price"]; [cls "a-offscreen"]] ]
  |}
|}.

Definition flipkart : Platform := {|
  platform_name := str "Flipkart";
  platform_id := str "flipkart";
  platform_color := str "#2874f0";
  platform_selectors := {|
    (* ._1fragrcH, .sBxzFz *)
    sel_container := [ [[cls "_1fragrcH"]]; [[cls "sBxzFz"]] ];
    (* ._2-4G_o a, .sBxzFz a, ._3I9Jbp *)
    sel_title :=
      [ [[cls "_2-4G_o"]; [tg "a"]]; [[cls "sBxzFz"]; [tg "a"]]; [[cls "_3I9Jbp"]] ];
    (* ._30jeq3._16Jk6d, ._30jeq3._1_bKsh, .WMgn0j *)
    sel_price :=
      [ [[cls "_30jeq3"; cls "_16Jk6d"]]; [[cls "_30jeq3"; cls "_1_bKsh"]];
        [[cls "WMgn0j"]] ]
  |}
|}.

Definition bigbasket : Platform := {|
  platform_name := str "BigBasket";
  platform_id := str "bigbasket";
  platform_color := str "#84c225";
  platform_selectors := {|
    (* .CartItemCard___StyledDiv-sc-1hz2rfp-0, .basket-item *)
    sel_container :=
      [ [[cls "CartItemCard___StyledDiv-sc-1hz2rfp-0"]]; [[cls "basket-item"]] ];
    (* .CartItemCard___StyledDiv2-sc-1hz2rfp-1 a, .product-name a *)
    sel_title :=
      [ [[cls "CartItemCard___StyledDiv2-sc-1hz2rfp-1"]; [tg "a"]];
        [[cls "product-name"]; [tg "a"]] ];
    (* .CartItemCard___StyledDiv8-sc-1hz2rfp-7, .discnt-price *)
    sel_price :=
      [ [[cls "CartItemCard___StyledDiv8-sc-1hz2rfp-7"]]; [[cls "discnt-price"]] ]
  |}
|}.

Definition swiggy : Platform := {|
  platform_name := str "Swiggy Instamart";
  platform_id := str "swiggy";
  platform_color := str "#fc8019";
  platform_selectors := {|
    (* .CartItem, [class*='CartItem'] *)
    sel_container := [ [[cls "CartItem"]]; [[attr_contains "class" "CartItem"]] ];
    (* .CartItem h4, [class*='CartItem'] h4, [class*='Name'] *)
    sel_title :=
      [ [[cls "CartItem"]; [tg "h4"]];
        [[attr_contains "class" "CartItem"]; [tg "h4"]];
        [[attr_contains "class" "Name"]] ];
    (* .CartItem [class*='Price'], [class*='CartItem'] [class*='Price'] *)
    sel_price :=
      [ [[cls "CartItem"]; [attr_contains "class" "Price"]];
        [[attr_contains "class" "CartItem"]; [attr_contains "class" "Price"]] ]
  |}
|}.

Definition walmart : Platform := {|
  platform_name := str "Walmart";
  platform_id := str "walmart";
  platform_color := str "#0071ce";
  platform_selectors := {|
    (* [data-automation-id='cart-line-item'], .cart-item *)
    sel_container :=
      [ [[attr_eq "data-automation-id" "cart-line-item"]]; [[cls "cart-item"]] ];
    (* [data-automation-id='product-title'] a, .product-title-link *)
    sel_title :=
      [ [[attr_eq "data-automation-id" "product-title"]; [tg "a"]];
        [[cls "product-title-link"]] ];
    (* [itemprop='price'], .price-current *)
    sel_price := [ [[attr_eq "itemprop" "price"]]; [[cls "price-current"]] ]
  |}
|}.

Definition target : Platform := {|
  platform_name := str "Target";
  platform_id := str "target";
  platform_color := str "#cc0000";
  platform_selectors := {|
    (* [data-test='cartItem'], .cart-item *)
    sel_container := [ [[attr_eq "data-test" "cartItem"]]; [[cls "cart-item"]] ];
    (* [data-test='product-title'] a, .product-title *)
    sel_title :=
      [ [[attr_eq "data-test" "product-title"]; [tg "a"]]; [[cls "product-title"]] ];
    (* [data-test='product-price'], .price *)
    sel_price := [ [[attr_eq "data-test" "product-price"]]; [[cls "price"]] ]
  |}
|}.

(** [detectPlatform]: the value left in [this.currentPlatform], which is
    [null] before; [url] is [window.location.href] and [hostname] is
    [window.location.hostname]. *)
Definition detectPlatform (url hostname : jsstring) : option Platform :=
  if includes hostname (str "amazon") then
    if includes url (str "/gp/cart") || includes url (str "/cart")
    then Some amazon else None
  else if includes hostname (str "flipkart") then
    if includes url (str "/viewcart") || includes url (str "/cart")
    then Some flipkart else None
  else if includes hostname (str "bigbasket") then
    if includes url (str "/basket") || includes url (str "/cart")
    then Some bigbasket else None
  else if includes hostname (str "swiggy") then
    if includes url (str "/instamart") && includes url (str "/cart")
    then Some swiggy else None
  else if includes hostname (str "walmart") then
    if includes url (str "/cart") then Some walmart else None
  else if includes hostname (str "target") then
    if includes url (str "/cart") then Some target else None
  else None.

(** [detectCurrency] *)
Definition detectCurrency (hostname : jsstring) : jsstring :=
  if includes hostname (str ".in") then str "INR" else str "USD".

(** The class that marks the injected button. *)
Definition marker : Selector := [ [[cls "cartgenie-analyze-btn"]] ].

(** [createAnalyzeButton]: the element as far as selectors and
    [textContent] can see it (class and content); the inline style, which
    takes its colour from the platform, and the listeners are left out.
    The content is a [span] holding U+1F50D and the caption. *)
Definition createAnalyzeButton (platform : Platform) : Node :=
  Element (str "button") [(str "class", str "cartgenie-analyze-btn")]
    [ Text (10%N :: str "      ");
      Element (str "span") [(str "style", str "margin-right: 8px;")]
        [Text [55357%N; 56589%N]];
      Text (10%N :: str "      Find Better Prices with CartGenie" ++ 10%N :: str "    ") ].

(** The candidates of [tryInjectButton], in the order they are tried. *)
Definition targets : list Selector :=
  [ [[ [tg "form"; attr_contains "action" "cart"] ]];   (* form[action*='cart'] *)
    [[ [cls "cart-container"] ]];                        (* .cart-container *)
    [[ [cls "cart-content"] ]];                          (* .cart-content *)
    [[ [Id (str "cart")] ]];                             (* #cart *)
    [[ [attr_contains "id" "cart"] ]];                   (* [id*='cart'] *)
    [[ [attr_contains "class" "cart"] ]] ].              (* [class*='cart'] *)

(** The loop over [targets]: the first candidate that selects something. *)
Fixpoint findTarget (sels : list Selector) (doc : Node) : option Located :=
  match sels with
  | [] => None
  | sel :: sels' =>
      match document_querySelector sel doc with
      | Some l => Some l
      | None => findTarget sels' doc
      end
  end.

(** [tryInjectButton]: the page afterwards and the value returned.  The
    [catch] branch is reached when [this.currentPlatform] or the element to
    append to is [null]; the page is then unchanged. *)
Definition tryInjectButton (currentPlatform : option Platform) (doc : Node)
    : Node * bool :=
  match document_querySelector marker doc with
  | Some _ => (doc, true)
  | None =>
      let targetElement :=
        match findTarget targets doc with
        | Some l => Some l
        | None => document_body doc
        end in
      match currentPlatform, targetElement with
      | Some platform, Some l =>
          (appendChildAt (loc_path l) (createAnalyzeButton platform) doc, true)
      | _, _ => (doc, false)
      end
  end.

(** The fields of [CartGenieContent] that the injection uses. *)
Record Content := {
  currentPlatform : option Platform;
  retryCount : nat;
  maxRetries : nat
}.

(** The object after [detectPlatform] has run in [init]. *)
Definition newContent (platform : option Platform) : Content :=
  {| currentPlatform := platform; retryCount := 0; maxRetries := 5 |}.

(** One call of [waitForPageAndInject]: the object and the page
    afterwards, and whether a timer was set to call it again. *)
Definition waitForPageAndInject (c : Content) (doc : Node) : Content * Node * bool :=
  if (maxRetries c <=? retryCount c)%nat then (c, doc, false)
  else
    let '(doc', success) := tryInjectButton (currentPlatform c) doc in
    if success then (c, doc', false)
    else ({| currentPlatform := currentPlatform c;
             retryCount := S (retryCount c);
             maxRetries := maxRetries c |}, doc', true).

(** The body of the [forEach] callback of [scrapeCartItems] for one
    container: the item pushed, if any. *)
Definition scrapeRow (platform : Platform) (hostname : jsstring) (container : Located)
    : option CartItem :=
  match querySelector (sel_title (platform_selectors platform)) container,
        querySelector (sel_price (platform_selectors platform)) container with
  | Some titleElement, Some priceElement =>
      let title := trim (textContent (loc_node titleElement)) in
      let priceText := trim (stripPriceChars (textContent (loc_node priceElement))) in
      let price := parseFloat priceText in
      if negb (bool_decide (title = [])) && negb (isNaN price) && gt_zero price then
        Some {| productTitle := title;
                price := price;
                quantity := 1;
                currency := detectCurrency hostname |}
      else None
  | _, _ => None
  end.

(** [scrapeCartItems] *)
Definition scrapeCartItems (currentPlatform : option Platform) (hostname : jsstring)
    (doc : Node) : list CartItem :=
  match currentPlatform with
  | None => []
  | Some platform =>
      omap (scrapeRow platform hostname)
        (document_querySelectorAll (sel_container (platform_selectors platform)) doc)
  end.

(** ** background.js *)

Definition API_ENDPOINT : jsstring := str "http://127.0.0.1:8000/api/v1/optimize-cart".

(** A call of [fetch]: the resource, the method and the body before
    [JSON.stringify]. *)
Record Request := {
  req_url : jsstring;
  req_method : jsstring;
  req_body : Payload
}.

(** A thrown [Error]; only its [message] is read. *)
Record JsError := { message : jsstring }.

(** How [await fetch(...)] settles. *)
Inductive FetchOutcome :=
  | FetchResponse (status : N) (statusText : jsstring)
  | FetchRejected (e : JsError).

(** How [await response.json()] settles. *)
Inductive JsonOutcome :=
  | JsonParsed (v : json)
  | JsonRejected (e : JsError).

(** The two suspension points of [analyzeCart]. *)
Inductive Stage := AwaitingFetch | AwaitingJson.

Global Instance Stage_eq_dec : EqDecision Stage.
Proof. solve_decision. Defined.

(** The service worker's state: the three module-level [Map]s, the badge
    kept by [chrome.action] for each tab, the requests handed to [fetch]
    so far, and the suspended [analyzeCart] activations (each remembers
    the [tabId] of its closure and where it is suspended). *)
Record State := {
  analysisResults : gmap Z json;
  analysisErrors : gmap Z jsstring;
  loadingStates : gmap Z bool;
  badgeText : gmap Z jsstring;
  badgeColor : gmap Z jsstring;
  fetched : list Request;
  suspended : list (Z * Stage)
}.

Definition initial : State := {|
  analysisResults := ∅;
  analysisErrors := ∅;
  loadingStates := ∅;
  badgeText := ∅;
  badgeColor := ∅;
  fetched := [];
  suspended := []
|}.

(** [chrome.action.setBadgeText({text, tabId})] *)
Definition setBadgeText (text : jsstring) (tabId : Z) (st : State) : State :=
  {| analysisResults := analysisResults st;
     analysisErrors := analysisErrors st;
     loadingStates := loadingStates st;
     badgeText := <[tabId := text]> (badgeText st);
     badgeColor := badgeColor st;
     fetched := fetched st;
     suspended := suspended st |}.

(** [chrome.action.setBadgeBackgroundColor({color, tabId})] *)
Definition setBadgeBackgroundColor (color : jsstring) (tabId : Z) (st : State) : State :=
  {| analysisResults := analysisResults st;
     analysisErrors := analysisErrors st;
     loadingStates := loadingStates st;
     badgeText := badgeText st;
     badgeColor := <[tabId := color]> (badgeColor st);
     fetched := fetched st;
     suspended := suspended st |}.

(** Truthiness of [loadingStates.get(tabId)]: [undefined] and [false] are
    falsy. *)
Definition isLoadingTab (st : State) (tabId : Z) : bool :=
  match loadingStates st !! tabId with
  | Some b => b
  | None => false
  end.

(** Badge texts. *)
Definition badge_loading : jsstring := str "...".
Definition badge_success : jsstring := [10003%N].  (* U+2713 check mark *)
Definition badge_error : jsstring := str "!".
Definition badge_none : jsstring := [].

Definition userContextOf (retailer : jsstring) : UserContext :=
  {| country := if includes retailer (str ".in") then str "IN" else str "US";
     postalCode := if includes retailer (str ".in") then str "560001" else str "90210" |}.

(** [analyzeCart], from its entry to [await fetch(...)]: the guard, the
    three [Map] updates, the payload and the call of [fetch].  The function
    is [async], so this part runs synchronously inside the caller.
    [cartData] is what content.js sends: [sourceRetailer] is a string. *)
Definition analyzeCart (cartData : CartData) (tabId : Z) (st : State) : State :=
  if isLoadingTab st tabId then st
  else
    let payload :=
      {| p_userContext := userContextOf (sourceRetailer cartData);
         p_sourceRetailer := sourceRetailer cartData;
         p_items := items cartData |} in
    {| analysisResults := delete tabId (analysisResults st);
       analysisErrors := delete tabId (analysisErrors st);
       loadingStates := <[tabId := true]> (loadingStates st);
       badgeText := badgeText st;
       badgeColor := badgeColor st;
       fetched := fetched st ++ [ {| req_url := API_ENDPOINT;
                                     req_method := str "POST";
                                     req_body := payload |} ];
       suspended := suspended st ++ [(tabId, AwaitingFetch)] |}.

(** [finally { loadingStates.set(tabId, false) }] *)
Definition analyzeCart_finally (tabId : Z) (st : State) : State :=
  {| analysisResults := analysisResults st;
     analysisErrors := analysisErrors st;
     loadingStates := <[tabId := false]> (loadingStates st);
     badgeText := badgeText st;
     badgeColor := badgeColor st;
     fetched := fetched st;
     suspended := suspended st |}.

(** The [catch (error)] block followed by [finally]. *)
Definition analyzeCart_catch (error : JsError) (tabId : Z) (st : State) : State :=
  let st1 :=
    {| analysisResults := analysisResults st;
       analysisErrors := <[tabId := message error]> (analysisErrors st);
       loadingStates := loadingStates st;
       badgeText := badgeText st;
       badgeColor := badgeColor st;
       fetched := fetched st;
       suspended := suspended st |} in
  let st2 := setBadgeText badge_error tabId st1 in
  let st3 := setBadgeBackgroundColor (str "#dc3545") tabId st2 in
  analyzeCart_finally tabId st3.

(** The rest of the [try] block once [response.json()] has resolved,
    followed by [finally]. *)
Definition analyzeCart_success (result : json) (tabId : Z) (st : State) : State :=
  let st1 :=
    {| analysisResults := <[tabId := result]> (analysisResults st);
       analysisErrors := analysisErrors st;
       loadingStates := loadingStates st;
       badgeText := badgeText st;
       badgeColor := badgeColor st;
       fetched := fetched st;
       suspended := suspended st |} in
  let st2 := setBadgeText badge_success tabId st1 in
  let st3 := setBadgeBackgroundColor (str "#28a745") tabId st2 in
  analyzeCart_finally tabId st3.

(** [response.ok]: the status is in the range 200-299. *)
Definition response_ok (status : N) : bool :=
  (200 <=? status)%N && (status <=? 299)%N.

(** The error thrown for a response that is not [ok]. *)
Definition statusError (status : N) (statusText : jsstring) : JsError :=
  {| message := str "API responded with status: " ++ Number_toString status
                ++ str " - " ++ statusText |}.

(** Replace the stage of, or drop, the first suspended activation of a tab. *)
Fixpoint resume (tabId : Z) (from : Stage) (to : option Stage)
    (l : list (Z * Stage)) : option (list (Z * Stage)) :=
  match l with
  | [] => None
  | (t, s) :: l' =>
      if decide (t = tabId ∧ s = from) then
        Some (match to with Some s' => (t, s') :: l' | None => l' end)
      else option_map (cons (t, s)) (resume tabId from to l')
  end.

Definition with_suspended (l : list (Z * Stage)) (st : State) : State :=
  {| analysisResults := analysisResults st;
     analysisErrors := analysisErrors st;
     loadingStates := loadingStates st;
     badgeText := badgeText st;
     badgeColor := badgeColor st;
     fetched := fetched st;
     suspended := l |}.

(** [analyzeCart] resumed after [await fetch(...)]. *)
Definition analyzeCart_afterFetch (tabId : Z) (o : FetchOutcome) (st : State)
    : option State :=
  match o with
  | FetchResponse status statusText =>
      if response_ok status then
        l ← resume tabId AwaitingFetch (Some AwaitingJson) (suspended st);
        Some (with_suspended l st)
      else
        l ← resume tabId AwaitingFetch None (suspended st);
        Some (analyzeCart_catch (statusError status statusText) tabId
                (with_suspended l st))
  | FetchRejected e =>
      l ← resume tabId AwaitingFetch None (suspended st);
      Some (analyzeCart_catch e tabId (with_suspended l st))
  end.

(** [analyzeCart] resumed after [await response.json()]. *)
Definition analyzeCart_afterJson (tabId : Z) (o : JsonOutcome) (st : State)
    : option State :=
  l ← resume tabId AwaitingJson None (suspended st);
  match o with
  | JsonParsed result => Some (analyzeCart_success result tabId (with_suspended l st))
  | JsonRejected e => Some (analyzeCart_catch e tabId (with_suspended l st))
  end.

(** The answer to a [GET_ANALYSIS_RESULT] message.  [None] stands for both
    [undefined] (a key missing from the [Map]) and [null]. *)
Record Snapshot := {
  isLoading : bool;
  result : option json;
  error : option jsstring
}.

(** A tab id is usable when it is defined and not [0] ([if (tabId)]). *)
Definition truthyTab (t : option Z) : option Z :=
  match t with
  | Some id => if Z.eqb id 0 then None else Some id
  | None => None
  end.

(** The [GET_ANALYSIS_RESULT] branch; [activeTab] is [tabs[0]?.id] of the
    [chrome.tabs.query] callback. *)
Definition getAnalysisResult (activeTab : option Z) (st : State) : Snapshot :=
  match truthyTab activeTab with
  | Some tabId =>
      {| isLoading := isLoadingTab st tabId;
         result := analysisResults st !! tabId;
         error := analysisErrors st !! tabId |}
  | None =>
      {| isLoading := false;
         result := None;
         error := Some (str "No active tab") |}
  end.

(** The [ANALYZE_CART] branch; [senderTab] is [sender.tab?.id]. *)
Definition onAnalyzeCart (payload : CartData) (senderTab : option Z) (st : State) : State :=
  match truthyTab senderTab with
  | Some tabId =>
      let st1 := analyzeCart payload tabId st in
      let st2 := setBadgeText badge_loading tabId st1 in
      setBadgeBackgroundColor (str "#ff007f") tabId st2
  | None => st
  end.

(** The [chrome.tabs.onUpdated] listener; [status] is [changeInfo.status]. *)
Definition onUpdated (tabId : Z) (status : option jsstring) (st : State) : State :=
  match status with
  | Some s => if decide (s = str "complete") then setBadgeText badge_none tabId st else st
  | None => st
  end.

(** What can happen to the service worker. *)
Inductive Event :=
  | AnalyzeCartMessage (payload : CartData) (senderTab : option Z)
  | GetAnalysisResultMessage (activeTab : option Z)
  | TabUpdated (tabId : Z) (status : option jsstring)
  | FetchSettled (tabId : Z) (o : FetchOutcome)
  | JsonSettled (tabId : Z) (o : JsonOutcome).

(** One turn of the event loop.  A settlement is possible only for an
    activation that is suspended at that point. *)
Definition step (ev : Event) (st : State) : option State :=
  match ev with
  | AnalyzeCartMessage payload senderTab => Some (onAnalyzeCart payload senderTab st)
  | GetAnalysisResultMessage _ => Some st
  | TabUpdated tabId status => Some (onUpdated tabId status st)
  | FetchSettled tabId o => analyzeCart_afterFetch tabId o st
  | JsonSettled tabId o => analyzeCart_afterJson tabId o st
  end.

Fixpoint run (evs : list Event) (st : State) : option State :=
  match evs with
  | [] => Some st
  | ev :: evs' => st' ← step ev st; run evs' st'
  end.

(** The states the service worker can be in. *)
Definition reachable (st : State) : Prop :=
  ∃ evs, run evs initial = Some st.

(** ** content.js: [init], the retry timers, the click on the button *)

(** A [CartGenieContent] object: the flag [init] sets, and the fields the
    injection uses.  ([extractedItems] is never read or written after the
    constructor.) *)
Record ContentScript := {
  isInitialized : bool;
  fields : Content
}.

(** [new CartGenieContent()] *)
Definition newContentScript : ContentScript :=
  {| isInitialized := false; fields := newContent None |}.

(** [init]: the object and the page afterwards, and whether a timer was
    set.  [detectPlatform] assigns [this.currentPlatform] only when a
    platform matches. *)
Definition init (url hostname : jsstring) (cs : ContentScript) (doc : Node)
    : ContentScript * Node * bool :=
  if isInitialized cs then (cs, doc, false)
  else
    let platform :=
      match detectPlatform url hostname with
      | Some p => Some p
      | None => currentPlatform (fields cs)
      end in
    let c1 := {| currentPlatform := platform;
                 retryCount := retryCount (fields cs);
                 maxRetries := maxRetries (fields cs) |} in
    match platform with
    | None => ({| isInitialized := false; fields := c1 |}, doc, false)
    | Some _ =>
        let '(c2, doc', timer) := waitForPageAndInject c1 doc in
        ({| isInitialized := true; fields := c2 |}, doc', timer)
    end.

(** The chain of [setTimeout] callbacks that one call of
    [waitForPageAndInject] starts.  [pages] lists the page as it is at the
    call and then at each time a timer fires; the result is the object at
    the end, the page after each call made, and whether a timer is still
    set when [pages] runs out. *)
Fixpoint retryChain (c : Content) (pages : list Node) : Content * list Node * bool :=
  match pages with
  | [] => (c, [], true)
  | doc :: pages' =>
      let '(c', doc', timer) := waitForPageAndInject c doc in
      if timer then
        let '(c'', docs, pending) := retryChain c' pages' in (c'', doc' :: docs, pending)
      else (c', [doc'], false)
  end.

(** [showNotification(message, type)] as [handleAnalyzeClick] calls it. *)
Record Notification := {
  n_message : jsstring;
  n_type : jsstring
}.

(** What a click on the button produces: the [ANALYZE_CART] message handed
    to [chrome.runtime.sendMessage], if any, and the notification asked
    for.  [doc] is the page when [scrapeCartItems] runs.  The changes to
    the button itself (caption, [disabled], colour, and their reset two
    seconds later) are left out. *)
Record Click := {
  sent : option CartData;
  shown : Notification
}.

Definition handleAnalyzeClick (currentPlatform : option Platform)
    (hostname : jsstring) (doc : Node) : Click :=
  match scrapeCartItems currentPlatform hostname doc with
  | [] =>
      {| sent := None;
         shown := {| n_message := str "No items found in cart";
                     n_type := str "error" |} |}
  | scraped =>
      {| sent := Some {| sourceRetailer := hostname; items := scraped |};
         shown := {| n_message := str "Analyzing "
                                  ++ Number_toString (N.of_nat (length scraped))
                                  ++ str " items...";
                     n_type := str "info" |} |}
  end.

(** ** The popup script *)

(** What the popup ends up showing: which [render...] method ran last. *)
Inductive View :=
  | NotCartPageView                  (* renderNotCartPage() *)
  | LoadingView                      (* renderLoading() *)
  | ErrorView (errorMessage : jsstring)   (* renderError(errorMessage) *)
  | ResultsView (resultData : json)  (* renderResults(resultData) *)
  | NoAnalysisView.                  (* renderNoAnalysis() *)

Definition cartPatterns : list jsstring :=
  [ str "/cart"; str "/gp/cart"; str "/viewcart"; str "/basket"; str "/checkout/cart" ].

(** [isCartPage]; [url] is [this.currentTab?.url]. *)
Definition isCartPage (url : option jsstring) : bool :=
  match url with
  | None => false
  | Some u =>
      if bool_decide (u = []) then false
      else existsb (λ pattern, includes u pattern) cartPatterns
  end.

(** Truthiness of a value that came through JSON. *)
Definition truthy (v : json) : bool :=
  match v with
  | JNull => false
  | JBool b => b
  | JNumber x =>
      match x with
      | S754_zero _ | S754_nan => false
      | _ => true
      end
  | JString s => negb (bool_decide (s = []))
  | JArray _ | JObject _ => true
  end.

(** The callback of [getAnalysisResults]; [lastError] is the message of
    [chrome.runtime.lastError] when it is set. *)
Definition getAnalysisResults (lastError : option jsstring) (response : Snapshot)
    : View :=
  match lastError with
  | Some m => ErrorView (str "Connection Error: " ++ m)
  | None =>
      if isLoading response then LoadingView
      else
        match error response with
        | Some (c :: m) => ErrorView (c :: m)
        | _ =>
            match result response with
            | Some r => if truthy r then ResultsView r else NoAnalysisView
            | None => NoAnalysisView
            end
        end
  end.

(** The active tab as [chrome.tabs.query] reports it. *)
Record Tab := {
  tab_id : option Z;
  tab_url : option jsstring
}.

(** The popup's [init], the query having resolved with [tab] ([None] when
    it found no tab): the view once the background has answered. *)
Definition popup_init (tab : option Tab) (lastError : option jsstring)
    (response : Snapshot) : View :=
  if isCartPage (tab ≫= tab_url) then getAnalysisResults lastError response
  else NotCartPageView.

(* ===================================================================== *)
(** * Part II: vocabulary of the specification, sample data               *)
(* ===================================================================== *)

(** ** Sessions *)

(** What holds in every state of the service worker. *)
Record Inv (st : State) : Prop := {
  inv_nodup : NoDup (suspended st).*1;
  inv_loading : ∀ tabId : Z, tabId ∈ (suspended st).*1 ↔ isLoadingTab st tabId = true;
  inv_cleared : ∀ tabId : Z, isLoadingTab st tabId = true →
      analysisResults st !! tabId = None ∧ analysisErrors st !! tabId = None;
  inv_exclusive : ∀ tabId : Z,
      analysisResults st !! tabId = None ∨ analysisErrors st !! tabId = None;
  inv_nonzero : ∀ tabId : Z, tabId ∈ (suspended st).*1 → tabId ≠ 0
}.

(** The ways an in-flight call fails, with the point at which the
    activation is suspended, the settlement that is the failure and the
    error that reaches the [catch] block.  For a response that is not [ok]
    the code builds the error itself; a rejection of [fetch] (network
    error) or of [response.json()] (body that does not parse) carries the
    browser's own error, whose message is not empty. *)
Inductive CallFails (tabId : Z) : Stage → Event → JsError → Prop :=
  | fails_status status statusText :
      response_ok status = false →
      CallFails tabId AwaitingFetch
        (FetchSettled tabId (FetchResponse status statusText))
        (statusError status statusText)
  | fails_network e :
      message e ≠ [] →
      CallFails tabId AwaitingFetch (FetchSettled tabId (FetchRejected e)) e
  | fails_parse e :
      message e ≠ [] →
      CallFails tabId AwaitingJson (JsonSettled tabId (JsonRejected e)) e.

(** A session under way: one accepted request for tab 7 of an Indian
    retailer, nothing settled yet. *)
Definition sample_cart : CartData :=
  {| sourceRetailer := str "www.amazon.in";
     items := [ {| productTitle := str "Sony WH-1000XM5";
                   price := S754_finite false 8243588429250560 (-38);   (* 29990 *)
                   quantity := 1;
                   currency := str "INR" |} ] |}.

Definition requesting7 : State := onAnalyzeCart sample_cart (Some 7) initial.

(** What the service answers in the end-to-end scenario. *)
Definition sample_result : json :=
  JObject [ (str "originalTotal", JNumber (S754_finite false 8243588429250560 (-38)));
            (str "optimizedTotal", JNumber (S754_finite false 7144076801474560 (-38)));
            (str "currency", JString (str "INR"));
            (str "totalSavings", JNumber (S754_finite false 8796093022208000 (-41)));
            (str "recommendations", JArray []) ].

(** The session of tab 7 after the service has answered: the response was
    [ok] and its body parsed. *)
Definition completed7 : State :=
  default initial
    (run [FetchSettled 7 (FetchResponse 200 (str "OK"));
          JsonSettled 7 (JsonParsed sample_result)]
         requesting7).

(** Tab 7 while its request is in flight, after the page has finished
    loading: the badge has been reset, the loading flag is still set. *)
Definition navigated7 : State := onUpdated 7 (Some (str "complete")) requesting7.

(** ** Host names and the adapter catalog *)

(** The last label of a host name: what follows its last dot. *)
Fixpoint lastLabel (cur : jsstring) (s : jsstring) : jsstring :=
  match s with
  | [] => cur
  | c :: s' => if N.eqb c 46 then lastLabel [] s' else lastLabel (cur ++ [c]) s'
  end.

Definition topLevelDomain (hostname : jsstring) : jsstring := lastLabel [] hostname.

(** Country-code top-level domains are the two-letter ones. *)
Definition isCountryCodeDomain (hostname : jsstring) : bool :=
  (length (topLevelDomain hostname) =? 2)%nat.

(** The adapter catalog in the words of the specification: an adapter has
    a match rule made of a retailer token looked for in the host name and
    a cart-page test on the url; adapters are registered in this order. *)
Record Adapter := {
  adapter_platform : Platform;
  retailerToken : jsstring;
  cartPage : jsstring → bool
}.

Definition catalog : list Adapter := [
  {| adapter_platform := amazon; retailerToken := str "amazon";
     cartPage := λ url, includes url (str "/gp/cart") || includes url (str "/cart") |};
  {| adapter_platform := flipkart; retailerToken := str "flipkart";
     cartPage := λ url, includes url (str "/viewcart") || includes url (str "/cart") |};
  {| adapter_platform := bigbasket; retailerToken := str "bigbasket";
     cartPage := λ url, includes url (str "/basket") || includes url (str "/cart") |};
  {| adapter_platform := swiggy; retailerToken := str "swiggy";
     cartPage := λ url, includes url (str "/instamart") && includes url (str "/cart") |};
  {| adapter_platform := walmart; retailerToken := str "walmart";
     cartPage := λ url, includes url (str "/cart") |};
  {| adapter_platform := target; retailerToken := str "target";
     cartPage := λ url, includes url (str "/cart") |}
].

Definition matchRule (a : Adapter) (url hostname : jsstring) : bool :=
  includes hostname (retailerToken a) && cartPage a url.

(** [identify] as the specification words it: the first adapter, in
    registration order, whose rule matches. *)
Definition identify_first_rule (url hostname : jsstring) : option Platform :=
  adapter_platform <$> List.find (λ a, matchRule a url hostname) catalog.

(** What the chain of [else if] does: the first adapter whose retailer
    token is in the host name is the only one whose cart-page test is
    tried. *)
Definition identify_first_host (url hostname : jsstring) : option Platform :=
  match List.find (λ a, includes hostname (retailerToken a)) catalog with
  | Some a => if cartPage a url then Some (adapter_platform a) else None
  | None => None
  end.

(** ** Pages *)

(** The elements under the children [ks] of an element, [i] being the
    position of the first of them. *)
Fixpoint elementsOfChildren (path : list nat) (ancestors : list (jsstring * Attrs))
    (i : nat) (ks : list Node) : list Located :=
  match ks with
  | [] => []
  | k :: ks' =>
      elementsOf (path ++ [i]) ancestors k ++ elementsOfChildren path ancestors (S i) ks'
  end.

(** Replace the [i]-th child. *)
Fixpoint appendInChild (path' : list nat) (child : Node) (i : nat) (ks : list Node)
    {struct ks} : list Node :=
  match ks with
  | [] => []
  | k :: ks' =>
      match i with
      | O => appendChildAt path' child k :: ks'
      | S i' => k :: appendInChild path' child i' ks'
      end
  end.

(** The node a path leads to. *)
Fixpoint nodeAt (path : list nat) (n : Node) : option Node :=
  match path with
  | [] => Some n
  | i :: path' =>
      match n with
      | Element _ _ children => k ← children !! i; nodeAt path' k
      | Text _ => None
      end
  end.

(** How many elements of a subtree satisfy a test on tag and attributes. *)
Definition countElements (P : jsstring → Attrs → bool) (n : Node) : nat :=
  length (filter (λ l, P (loc_tag l) (loc_attrs l) = true) (elementsOf [] [] n)).

(** The test the marker selector puts on an element. *)
Definition isTrigger (tag : jsstring) (attrs : Attrs) : bool :=
  bool_decide (str "cartgenie-analyze-btn" ∈ classList attrs).

(** The trigger controls of a page. *)
Definition triggerControls (doc : Node) : list Located :=
  document_querySelectorAll marker doc.

(** The trimmed title of a container row, when its title element exists. *)
Definition rowTitle (platform : Platform) (row : Located) : option jsstring :=
  (λ titleElement, trim (textContent (loc_node titleElement)))
    <$> querySelector (sel_title (platform_selectors platform)) row.

(** The price text of a row after every rupee sign, dollar sign, comma and
    white-space character has been removed, when its price element exists. *)
Definition rowPriceText (platform : Platform) (row : Located) : option jsstring :=
  (λ priceElement, trim (stripPriceChars (textContent (loc_node priceElement))))
    <$> querySelector (sel_price (platform_selectors platform)) row.

(** A well-formed row, in the words of the specification: title and price
    elements present, title not empty, price parsed to a finite value
    greater than zero. *)
Definition wellFormedRow (platform : Platform) (row : Located)
    : option (jsstring * number) :=
  title ← rowTitle platform row;
  priceText ← rowPriceText platform row;
  let price := parseFloat priceText in
  if negb (bool_decide (title = [])) && isFinite price && gt_zero price
  then Some (title, price) else None.

Definition itemOf (hostname : jsstring) (tp : jsstring * number) : CartItem :=
  {| productTitle := tp.1; price := tp.2; quantity := 1;
     currency := detectCurrency hostname |}.

(** No price of the row reads as positive infinity. *)
Definition noInfinitePrice (platform : Platform) (row : Located) : bool :=
  match rowPriceText platform row with
  | Some t => match parseFloat t with S754_infinity false => false | _ => true end
  | None => true
  end.

(** A cart page in the shape the Amazon selectors expect. *)
Definition attr (name value : string) : jsstring * jsstring := (str name, str value).

Definition el (tag : string) (attrs : Attrs) (children : list Node) : Node :=
  Element (str tag) attrs children.

Definition cartRow (index : string) (title priceText : jsstring) : Node :=
  el "div" [attr "data-item-index" index]
    [ el "span" [attr "class" "a-truncate sc-product-title"]
        [ el "span" [] [Text title] ];
      el "span" [attr "class" "sc-product-price"]
        [ el "span" [attr "class" "a-offscreen"] [Text priceText] ] ].

Definition cartPageOf (rows : list Node) : Node :=
  el "html" []
    [ el "head" [] [ el "title" [] [Text (str "Shopping Cart")] ];
      el "body" []
        [ el "div" [attr "id" "sc-active-cart"; attr "data-name" "Active Items"] rows ] ].

Definition sample_page : Node :=
  cartPageOf
    [ cartRow "1" (str "Sony WH-1000XM5") (rupee :: str "29,990.00");
      cartRow "2" (str "Gift wrap") (str "Free");
      cartRow "3" (str "   ") (rupee :: str "100.00");
      cartRow "4" (str " USB-C cable ") (32%N :: rupee :: str "1,299.00" ++ [10%N]);
      el "div" [attr "data-item-index" "5"]
        [ el "span" [attr "class" "sc-product-title"]
            [ el "span" [] [Text (str "No price")] ] ] ].

(** A cart row priced in pounds, and one whose price text is a word that
    [parseFloat] reads as a number. *)
Definition pound : N := 163.   (* U+00A3 *)

Definition pound_page : Node :=
  cartPageOf [ cartRow "1" (str "Kettle") (pound :: str "12.50") ].

Definition infinity_page : Node :=
  cartPageOf [ cartRow "1" (str "Mystery box") (str "Infinity") ].

(** A document whose [body] has not been parsed yet and that holds no
    candidate container, and a page that already carries two elements with
    the marker class. *)
Definition bodiless_page : Node :=
  el "html" [] [ el "head" [] [ el "title" [] [Text (str "Shopping Cart")] ] ].

Definition two_marker_page : Node :=
  el "html" []
    [ el "body" []
        [ el "div" [attr "id" "cart"]
            [ el "button" [attr "class" "cartgenie-analyze-btn"] [];
              el "button" [attr "class" "btn cartgenie-analyze-btn"] [] ] ] ].

(** ** Events and tabs *)

(** The tab an event is about, if it changes anything at all. *)
Definition eventTab (ev : Event) : option Z :=
  match ev with
  | AnalyzeCartMessage _ senderTab => truthyTab senderTab
  | GetAnalysisResultMessage _ => None
  | TabUpdated tabId _ => Some tabId
  | FetchSettled tabId _ => Some tabId
  | JsonSettled tabId _ => Some tabId
  end.

(** The event is a settlement of a call made for the tab. *)
Definition settles (ev : Event) (tabId : Z) : Prop :=
  match ev with
  | FetchSettled t _ | JsonSettled t _ => t = tabId
  | _ => False
  end.

(** The request [analyzeCart] makes for a cart. *)
Definition requestFor (cartData : CartData) : Request :=
  {| req_url := API_ENDPOINT;
     req_method := str "POST";
     req_body := {| p_userContext := userContextOf (sourceRetailer cartData);
                    p_sourceRetailer := sourceRetailer cartData;
                    p_items := items cartData |} |}.


(* ===================================================================== *)
(** * Part III: properties                                                *)
(* ===================================================================== *)

(** C10: with no active tab, the snapshot is not loading, has no result and
    carries the non-empty error text "No active tab". *)
Theorem getAnalysisResult_no_active_tab (st : State) :
  getAnalysisResult None st =
    {| isLoading := false; result := None; error := Some (str "No active tab") |}
  ∧ str "No active tab" ≠ [].
Proof. split; [reflexivity | discriminate]. Qed.

(** ** The at-most-one-in-flight discipline of [analyzeCart] *)

Section Orchestrator.

Implicit Types (st : State) (tabId : Z) (l : list (Z * Stage)).

Lemma resume_Some tabId from to l l' :
  resume tabId from to l = Some l' →
  ∃ l1 l2, l = l1 ++ (tabId, from) :: l2
    ∧ l' = l1 ++ match to with Some s' => [(tabId, s')] | None => [] end ++ l2.
Proof.
  revert l'. induction l as [|[t s] l IH]; intros l' H; simpl in H; [discriminate|].
  destruct (decide (t = tabId ∧ s = from)) as [[-> ->]|Hne].
  - injection H as <-. exists [], l. by destruct to.
  - destruct (resume tabId from to l) as [r|] eqn:E; [|discriminate].
    injection H as <-. destruct (IH r eq_refl) as (l1 & l2 & -> & ->).
    by exists ((t, s) :: l1), l2.
Qed.

Lemma resume_elem tabId from to l :
  (tabId, from) ∈ l → is_Some (resume tabId from to l).
Proof.
  induction l as [|[t s] l IH]; intros H; [by apply elem_of_nil in H|].
  simpl. destruct (decide (t = tabId ∧ s = from)); [eauto|].
  apply elem_of_cons in H as [[= <- <-]|H]; [tauto|].
  destruct (IH H) as [r ->]. eauto.
Qed.

Lemma isLoadingTab_insert st tabId t b (m : gmap Z bool) :
  loadingStates st = <[tabId := b]> m →
  isLoadingTab st t = if decide (tabId = t) then b
                      else match m !! t with Some c => c | None => false end.
Proof.
  intros E. unfold isLoadingTab. rewrite E, lookup_insert.
  by destruct (decide (tabId = t)).
Qed.

Lemma isLoadingTab_catch e tabId st t :
  isLoadingTab (analyzeCart_catch e tabId st) t
  = if decide (tabId = t) then false else isLoadingTab st t.
Proof. unfold isLoadingTab. simpl. rewrite lookup_insert. by destruct (decide _). Qed.

Lemma isLoadingTab_success r tabId st t :
  isLoadingTab (analyzeCart_success r tabId st) t
  = if decide (tabId = t) then false else isLoadingTab st t.
Proof. unfold isLoadingTab. simpl. rewrite lookup_insert. by destruct (decide _). Qed.

Lemma isLoadingTab_with_suspended l st t :
  isLoadingTab (with_suspended l st) t = isLoadingTab st t.
Proof. reflexivity. Qed.

Lemma Inv_initial : Inv initial.
Proof.
  split; simpl; intros.
  - constructor.
  - unfold isLoadingTab. simpl. rewrite lookup_empty.
    split; [intros H; by apply elem_of_nil in H | discriminate].
  - by rewrite !lookup_empty.
  - left. apply lookup_empty.
  - by apply elem_of_nil in H.
Qed.

Lemma Inv_setBadgeText st text tabId : Inv st → Inv (setBadgeText text tabId st).
Proof. intros [H1 H2 H3 H4 H5]. by split. Qed.

Lemma Inv_setBadgeBackgroundColor st c tabId :
  Inv st → Inv (setBadgeBackgroundColor c tabId st).
Proof. intros [H1 H2 H3 H4 H5]. by split. Qed.

Lemma Inv_analyzeCart st cartData tabId :
  tabId ≠ 0 → Inv st → Inv (analyzeCart cartData tabId st).
Proof.
  intros Hnz [H1 H2 H3 H4 H5]. unfold analyzeCart.
  destruct (isLoadingTab st tabId) eqn:Hl; [by split|].
  assert (Hfresh : tabId ∉ (suspended st).*1).
  { intros Hin. apply H2 in Hin. congruence. }
  split; simpl.
  - rewrite fmap_app. simpl. apply NoDup_app. split_and!; [done| |apply NoDup_singleton].
    intros x Hx Hx'. apply list_elem_of_singleton in Hx'. by subst.
  - intros t. erewrite isLoadingTab_insert by reflexivity.
    rewrite fmap_app, elem_of_app. simpl. rewrite list_elem_of_singleton.
    destruct (decide (tabId = t)) as [->|Hne].
    + split; auto.
    + rewrite H2. unfold isLoadingTab. split; [intros [?|?]; [done|congruence]|auto].
  - intros t. erewrite isLoadingTab_insert by reflexivity.
    destruct (decide (tabId = t)) as [->|Hne].
    + intros _. by rewrite !lookup_delete_eq.
    + intros Hl'. rewrite !lookup_delete_ne by done. by apply H3.
  - intros t. destruct (decide (tabId = t)) as [->|Hne].
    + left. apply lookup_delete_eq.
    + rewrite !lookup_delete_ne by done. apply H4.
  - intros t. rewrite fmap_app, elem_of_app. simpl. rewrite list_elem_of_singleton.
    intros [?| ->]; auto.
Qed.

Lemma suspended_split_fresh st tabId s l1 l2 :
  Inv st → suspended st = l1 ++ (tabId, s) :: l2 →
  (tabId ∉ (l1 ++ l2).*1)
  ∧ (∀ t, t ∈ (suspended st).*1 ↔ t = tabId ∨ t ∈ (l1 ++ l2).*1)
  ∧ NoDup (l1 ++ l2).*1.
Proof.
  intros [H1 _ _ _ _] E. rewrite E in *. clear E.
  rewrite !fmap_app, fmap_cons in *. simpl in *.
  apply NoDup_app in H1 as (Ha & Hb & Hc). apply NoDup_cons in Hc as [Hc Hd].
  split_and!.
  - rewrite elem_of_app. intros [Hin|Hin]; [|done].
    apply (Hb _ Hin). apply elem_of_cons. by left.
  - intros t. rewrite !elem_of_app, elem_of_cons. tauto.
  - apply NoDup_app. split_and!; [done| |done].
    intros x Hx Hx'. apply (Hb x Hx). apply elem_of_cons. by right.
Qed.

Lemma Inv_restage st tabId s s' l1 l2 :
  Inv st → suspended st = l1 ++ (tabId, s) :: l2 →
  Inv (with_suspended (l1 ++ (tabId, s') :: l2) st).
Proof.
  intros HI E. destruct HI as [H1 H2 H3 H4 H5].
  assert (Hsame : (l1 ++ (tabId, s') :: l2).*1 = (suspended st).*1).
  { rewrite E, !fmap_app. reflexivity. }
  split; simpl; try rewrite Hsame; try done.
Qed.

(** The state right after a [finally] that follows a [catch] or the end of
    the [try] block: the activation is gone and exactly one of the two
    [Map]s has received a value. *)
Lemma Inv_catch st tabId s e l1 l2 :
  Inv st → suspended st = l1 ++ (tabId, s) :: l2 →
  Inv (analyzeCart_catch e tabId (with_suspended (l1 ++ l2) st)).
Proof.
  intros HI E. destruct (suspended_split_fresh _ _ _ _ _ HI E) as (Hf & Hmem & Hnd).
  destruct HI as [H1 H2 H3 H4 H5].
  assert (Hl : isLoadingTab st tabId = true) by (apply H2, Hmem; by left).
  split; [exact Hnd|..].
  - intros t. rewrite isLoadingTab_catch, isLoadingTab_with_suspended.
    destruct (decide (tabId = t)) as [->|Hne]; [split; [done|discriminate]|].
    rewrite <- H2, Hmem. split; [auto | intros [?|?]; [congruence|done]].
  - intros t. rewrite isLoadingTab_catch, isLoadingTab_with_suspended.
    destruct (decide (tabId = t)) as [->|Hne]; [discriminate|].
    intros Ht. simpl. rewrite ?lookup_insert_ne by done. by apply H3.
  - intros t. simpl. destruct (decide (tabId = t)) as [->|Hne].
    + left. by apply H3.
    + rewrite lookup_insert_ne by done. apply H4.
  - intros t Ht. apply H5, Hmem. by right.
Qed.

Lemma Inv_success st tabId s r l1 l2 :
  Inv st → suspended st = l1 ++ (tabId, s) :: l2 →
  Inv (analyzeCart_success r tabId (with_suspended (l1 ++ l2) st)).
Proof.
  intros HI E. destruct (suspended_split_fresh _ _ _ _ _ HI E) as (Hf & Hmem & Hnd).
  destruct HI as [H1 H2 H3 H4 H5].
  assert (Hl : isLoadingTab st tabId = true) by (apply H2, Hmem; by left).
  split; [exact Hnd|..].
  - intros t. rewrite isLoadingTab_success, isLoadingTab_with_suspended.
    destruct (decide (tabId = t)) as [->|Hne]; [split; [done|discriminate]|].
    rewrite <- H2, Hmem. split; [auto | intros [?|?]; [congruence|done]].
  - intros t. rewrite isLoadingTab_success, isLoadingTab_with_suspended.
    destruct (decide (tabId = t)) as [->|Hne]; [discriminate|].
    intros Ht. simpl. rewrite ?lookup_insert_ne by done. by apply H3.
  - intros t. simpl. destruct (decide (tabId = t)) as [->|Hne].
    + right. by apply H3.
    + rewrite lookup_insert_ne by done. apply H4.
  - intros t Ht. apply H5, Hmem. by right.
Qed.

Lemma Inv_step ev st st' : Inv st → step ev st = Some st' → Inv st'.
Proof.
  intros HI Hs. destruct ev as [payload sender|active|t status|t o|t o]; simpl in Hs.
  - injection Hs as <-. unfold onAnalyzeCart, truthyTab.
    destruct sender as [id|]; [|done]. destruct (Z.eqb_spec id 0); [done|].
    by apply Inv_setBadgeBackgroundColor, Inv_setBadgeText, Inv_analyzeCart.
  - by injection Hs as <-.
  - injection Hs as <-. unfold onUpdated. destruct status as [s|]; [|done].
    destruct (decide _); [by apply Inv_setBadgeText|done].
  - unfold analyzeCart_afterFetch in Hs.
    destruct o as [status text|e]; [destruct (response_ok status)|];
      match type of Hs with
      | context [resume ?a ?b ?c ?d] => destruct (resume a b c d) as [l|] eqn:E
      end; simpl in Hs; try discriminate; injection Hs as <-;
      apply resume_Some in E as (l1 & l2 & E & ->); simpl.
    + by eapply Inv_restage.
    + by eapply Inv_catch.
    + by eapply Inv_catch.
  - unfold analyzeCart_afterJson in Hs.
    destruct (resume t AwaitingJson None (suspended st)) as [l|] eqn:E;
      simpl in Hs; [|discriminate].
    apply resume_Some in E as (l1 & l2 & E & ->); simpl in *.
    destruct o; injection Hs as <-; [by eapply Inv_success | by eapply Inv_catch].
Qed.

Lemma Inv_run evs st st' : Inv st → run evs st = Some st' → Inv st'.
Proof.
  revert st. induction evs as [|ev evs IH]; intros st HI Hr; simpl in Hr.
  - by injection Hr as <-.
  - destruct (step ev st) as [st1|] eqn:E; [|discriminate]. simpl in Hr.
    eapply IH; [|done]. by eapply Inv_step.
Qed.

Lemma reachable_Inv st : reachable st → Inv st.
Proof. intros [evs Hr]. eapply Inv_run; [apply Inv_initial | done]. Qed.

Lemma reachable_step ev st st' : reachable st → step ev st = Some st' → reachable st'.
Proof.
  intros [evs Hr] Hs. exists (evs ++ [ev]).
  revert Hr. generalize initial. induction evs as [|e evs IH]; intros s0 Hr; simpl in *.
  - injection Hr as ->. by rewrite Hs.
  - destruct (step e s0); [|discriminate]. simpl in *. by apply IH.
Qed.

End Orchestrator.

Lemma requesting7_reachable : reachable requesting7.
Proof. by exists [AnalyzeCartMessage sample_cart (Some 7)]. Qed.

Lemma truthyTab_Some (t z : Z) : truthyTab (Some t) = Some z → z = t ∧ t ≠ 0.
Proof. simpl. destruct (Z.eqb_spec t 0); [discriminate|]. by intros [= ->]. Qed.

Lemma truthyTab_nonzero (t : Z) : t ≠ 0 → truthyTab (Some t) = Some t.
Proof. intros H. simpl. by destruct (Z.eqb_spec t 0). Qed.

(** C1: a request for a tab whose loading flag is set is ignored.
    [analyzeCart] returns at its guard without touching anything, so the
    listener that called it hands nothing to [fetch], suspends no new
    activation and leaves the three [Map]s as they were. *)
Theorem analyzeCart_ignored_while_loading (st : State) (cartData : CartData) (tabId : Z) :
  isLoadingTab st tabId = true →
  analyzeCart cartData tabId st = st
  ∧ fetched (onAnalyzeCart cartData (Some tabId) st) = fetched st
  ∧ suspended (onAnalyzeCart cartData (Some tabId) st) = suspended st
  ∧ analysisResults (onAnalyzeCart cartData (Some tabId) st) = analysisResults st
  ∧ analysisErrors (onAnalyzeCart cartData (Some tabId) st) = analysisErrors st
  ∧ loadingStates (onAnalyzeCart cartData (Some tabId) st) = loadingStates st.
Proof.
  intros Hl.
  assert (E : analyzeCart cartData tabId st = st) by (unfold analyzeCart; by rewrite Hl).
  split; [done|]. unfold onAnalyzeCart.
  destruct (truthyTab (Some tabId)) as [z|] eqn:Ht; [|done].
  apply truthyTab_Some in Ht as [-> _]. by rewrite E.
Qed.

Lemma analyzeCart_ignored_while_loading_witness :
  isLoadingTab requesting7 7 = true
  ∧ analyzeCart sample_cart 7 requesting7 = requesting7
  ∧ fetched (onAnalyzeCart sample_cart (Some 7) requesting7) = fetched requesting7.
Proof.
  assert (H : isLoadingTab requesting7 7 = true) by reflexivity.
  split; [exact H|].
  destruct (analyzeCart_ignored_while_loading requesting7 sample_cart 7 H)
    as (H1 & H2 & _).
  split; [exact H1 | exact H2].
Defined.

(** ** Failure of the optimization call *)

Lemma CallFails_message tabId stage ev e :
  CallFails tabId stage ev e → message e ≠ [].
Proof. destruct 1; [discriminate|done|done]. Qed.

(** A failing settlement of a suspended activation runs [catch] and
    [finally] on the state without that activation. *)
Lemma CallFails_step st tabId stage ev e :
  (tabId, stage) ∈ suspended st → CallFails tabId stage ev e →
  ∃ l1 l2, suspended st = l1 ++ (tabId, stage) :: l2
    ∧ step ev st = Some (analyzeCart_catch e tabId (with_suspended (l1 ++ l2) st)).
Proof.
  intros Hin Hf.
  destruct (resume_elem tabId stage None _ Hin) as [l Hl].
  destruct (resume_Some _ _ _ _ _ Hl) as (l1 & l2 & E & ->).
  exists l1, l2. split; [done|].
  destruct Hf as [status text Hok|e He|e He]; simpl.
  - unfold analyzeCart_afterFetch. by rewrite Hok, Hl.
  - unfold analyzeCart_afterFetch. by rewrite Hl.
  - unfold analyzeCart_afterJson. by rewrite Hl.
Qed.

Lemma analyzeCart_failure_state st tabId stage ev e :
  Inv st → (tabId, stage) ∈ suspended st → CallFails tabId stage ev e →
  ∃ st', step ev st = Some st'
    ∧ analysisErrors st' !! tabId = Some (message e)
    ∧ analysisResults st' !! tabId = None
    ∧ isLoadingTab st' tabId = false
    ∧ loadingStates st' !! tabId = Some false
    ∧ (tabId ∉ (suspended st').*1)
    ∧ tabId ≠ 0.
Proof.
  intros HI Hin Hf.
  destruct (CallFails_step _ _ _ _ _ Hin Hf) as (l1 & l2 & E & Hs).
  destruct (suspended_split_fresh _ _ _ _ _ HI E) as (Hfresh & Hmem & _).
  assert (Hsusp : tabId ∈ (suspended st).*1) by (apply Hmem; by left).
  assert (Hl : isLoadingTab st tabId = true) by by apply (inv_loading _ HI).
  destruct (inv_cleared _ HI _ Hl) as [Hres _].
  eexists. split; [exact Hs|]. split_and!.
  - simpl. apply lookup_insert_eq.
  - exact Hres.
  - rewrite isLoadingTab_catch. by destruct (decide _).
  - simpl. apply lookup_insert_eq.
  - exact Hfresh.
  - by apply (inv_nonzero _ HI).
Qed.

(** C4: when an in-flight call fails (status outside 200-299, network
    error, body that does not parse), the settlement is handled and leaves
    the session failed: the non-empty message is stored, no result is
    stored, the loading flag is false and the activation is gone, so the
    next request goes through to [fetch], and the snapshot of that tab
    reads not loading, no result, that message. *)
Theorem analyzeCart_failure (st : State) (tabId : Z) (stage : Stage)
    (ev : Event) (e : JsError) :
  reachable st →
  (tabId, stage) ∈ suspended st →
  CallFails tabId stage ev e →
  ∃ st', step ev st = Some st'
    ∧ message e ≠ []
    ∧ analysisErrors st' !! tabId = Some (message e)
    ∧ analysisResults st' !! tabId = None
    ∧ loadingStates st' !! tabId = Some false
    ∧ (tabId ∉ (suspended st').*1)
    ∧ (∀ cartData,
         length (fetched (analyzeCart cartData tabId st')) = S (length (fetched st')))
    ∧ getAnalysisResult (Some tabId) st'
      = {| isLoading := false; result := None; error := Some (message e) |}.
Proof.
  intros Hr Hin Hf.
  destruct (analyzeCart_failure_state st tabId stage ev e (reachable_Inv _ Hr) Hin Hf)
    as (st' & Hs & Herr & Hres & Hload & Hflag & Hfresh & Hnz).
  exists st'. split_and!; try done.
  - by eapply CallFails_message.
  - intros cartData. unfold analyzeCart. rewrite Hload. simpl.
    rewrite length_app. simpl. lia.
  - unfold getAnalysisResult. rewrite truthyTab_nonzero by done.
    by rewrite Hload, Hres, Herr.
Qed.

(** The service answering with status 500 to the request of tab 7. *)
Lemma analyzeCart_failure_witness :
  ∃ st', step (FetchSettled 7 (FetchResponse 500 (str "Internal Server Error")))
              requesting7 = Some st'
    ∧ getAnalysisResult (Some 7) st'
      = {| isLoading := false; result := None;
           error := Some (str "API responded with status: 500 - Internal Server Error") |}.
Proof.
  destruct (analyzeCart_failure requesting7 7 AwaitingFetch
              (FetchSettled 7 (FetchResponse 500 (str "Internal Server Error")))
              (statusError 500 (str "Internal Server Error")))
    as (st' & Hs & _ & _ & _ & _ & _ & _ & Hq).
  - exact requesting7_reachable.
  - simpl. apply list_elem_of_singleton. reflexivity.
  - apply fails_status. reflexivity.
  - exists st'. split; [exact Hs | exact Hq].
Defined.

(** ** Navigation and the badge *)

(** C5: a completed page navigation touches the badge text only.  The
    three [Map]s, the requests made and the suspended activations are the
    same, so every snapshot is the same; for a tab whose analysis has
    completed, the snapshot still holds the stored result and is not
    loading. *)
Theorem onUpdated_keeps_session (st : State) (t : Z) (status : option jsstring) :
  analysisResults (onUpdated t status st) = analysisResults st
  ∧ analysisErrors (onUpdated t status st) = analysisErrors st
  ∧ loadingStates (onUpdated t status st) = loadingStates st
  ∧ fetched (onUpdated t status st) = fetched st
  ∧ suspended (onUpdated t status st) = suspended st
  ∧ badgeColor (onUpdated t status st) = badgeColor st
  ∧ (∀ active, getAnalysisResult active (onUpdated t status st)
               = getAnalysisResult active st)
  ∧ (∀ tabId r, tabId ≠ 0 →
       isLoadingTab st tabId = false →
       analysisResults st !! tabId = Some r →
       getAnalysisResult (Some tabId) (onUpdated t (Some (str "complete")) st)
       = {| isLoading := false; result := Some r;
            error := analysisErrors st !! tabId |}).
Proof.
  assert (H : ∀ status', onUpdated t status' st = st
              ∨ onUpdated t status' st = setBadgeText badge_none t st).
  { intros [s|]; simpl; [destruct (decide _)|]; auto. }
  split_and!; try (destruct (H status) as [-> | ->]; reflexivity).
  intros tabId r Hnz Hl Hr. unfold getAnalysisResult.
  rewrite truthyTab_nonzero by done.
  destruct (H (Some (str "complete"))) as [-> | ->].
  - by rewrite Hl, Hr.
  - change (isLoadingTab (setBadgeText badge_none t st) tabId)
      with (isLoadingTab st tabId).
    rewrite Hl. simpl. by rewrite Hr.
Qed.

(** The end-to-end scenario: one request from tab 7, answered with status
    200 and a body that parses. *)
Example end_to_end_scenario :
  run [ AnalyzeCartMessage sample_cart (Some 7);
        FetchSettled 7 (FetchResponse 200 (str "OK"));
        JsonSettled 7 (JsonParsed sample_result) ] initial = Some completed7
  ∧ (req_body <$> fetched completed7)
    = [ {| p_userContext := {| country := str "IN"; postalCode := str "560001" |};
           p_sourceRetailer := str "www.amazon.in";
           p_items := items sample_cart |} ]
  ∧ getAnalysisResult (Some 7) completed7
    = {| isLoading := false; result := Some sample_result; error := None |}
  ∧ badgeText completed7 !! 7 = Some badge_success.
Proof. split_and!; reflexivity. Qed.

Lemma onUpdated_keeps_session_witness :
  getAnalysisResult (Some 7) (onUpdated 7 (Some (str "complete")) completed7)
  = {| isLoading := false; result := Some sample_result; error := None |}.
Proof.
  destruct (onUpdated_keeps_session completed7 7 None) as (_ & _ & _ & _ & _ & _ & _ & H).
  rewrite (H 7 sample_result); [reflexivity | lia | reflexivity | reflexivity].
Defined.

(** C9: in every reachable state no tab has both a stored result and a
    stored error.  An accepted request deletes both before [fetch] is
    called, a call that succeeds stores the result and no error, a call
    that fails stores the error and no result. *)
Theorem result_error_exclusive (st : State) :
  reachable st →
  (∀ tabId, analysisResults st !! tabId = None ∨ analysisErrors st !! tabId = None)
  ∧ (∀ cartData tabId, isLoadingTab st tabId = false →
       analysisResults (analyzeCart cartData tabId st) !! tabId = None
       ∧ analysisErrors (analyzeCart cartData tabId st) !! tabId = None)
  ∧ (∀ tabId r, (tabId, AwaitingJson) ∈ suspended st →
       ∃ st', step (JsonSettled tabId (JsonParsed r)) st = Some st'
         ∧ analysisResults st' !! tabId = Some r
         ∧ analysisErrors st' !! tabId = None)
  ∧ (∀ tabId stage ev e, (tabId, stage) ∈ suspended st →
       CallFails tabId stage ev e →
       ∃ st', step ev st = Some st'
         ∧ analysisResults st' !! tabId = None
         ∧ analysisErrors st' !! tabId = Some (message e)).
Proof.
  intros Hr. pose proof (reachable_Inv _ Hr) as HI. split_and!.
  - apply (inv_exclusive _ HI).
  - intros cartData tabId Hl. unfold analyzeCart. rewrite Hl. simpl.
    by rewrite !lookup_delete_eq.
  - intros tabId r Hin.
    destruct (resume_elem tabId AwaitingJson None _ Hin) as [l Hl].
    destruct (resume_Some _ _ _ _ _ Hl) as (l1 & l2 & E & ->).
    destruct (suspended_split_fresh _ _ _ _ _ HI E) as (_ & Hmem & _).
    assert (Hload : isLoadingTab st tabId = true).
    { apply (inv_loading _ HI), Hmem. by left. }
    destruct (inv_cleared _ HI _ Hload) as [_ Herr].
    eexists. split; [simpl; unfold analyzeCart_afterJson; by rewrite Hl|].
    simpl. by rewrite lookup_insert_eq.
  - intros tabId stage ev e Hin Hf.
    destruct (analyzeCart_failure_state st tabId stage ev e HI Hin Hf)
      as (st' & Hs & Herr & Hres & _).
    by exists st'.
Qed.

Lemma result_error_exclusive_witness :
  analysisResults completed7 !! 7 = Some sample_result
  ∧ analysisErrors completed7 !! 7 = None.
Proof.
  assert (Hr : reachable completed7).
  { exists [AnalyzeCartMessage sample_cart (Some 7);
            FetchSettled 7 (FetchResponse 200 (str "OK"));
            JsonSettled 7 (JsonParsed sample_result)].
    reflexivity. }
  destruct (result_error_exclusive completed7 Hr) as (H & _).
  split; [reflexivity|].
  destruct (H 7) as [H7 | H7]; [discriminate H7 | exact H7].
Defined.

(** C6, as stated, fails: a request ignored by the guard of [analyzeCart]
    still changes the badge.  With the request of tab 7 in flight and the
    badge reset by a navigation, a second request makes no call and
    changes no [Map], but the badge goes from empty to in-progress. *)
Lemma ignored_request_changes_badge :
  reachable navigated7
  ∧ isLoadingTab navigated7 7 = true
  ∧ analyzeCart sample_cart 7 navigated7 = navigated7
  ∧ fetched (onAnalyzeCart sample_cart (Some 7) navigated7) = fetched navigated7
  ∧ badgeText navigated7 !! 7 = Some badge_none
  ∧ badgeText (onAnalyzeCart sample_cart (Some 7) navigated7) !! 7 = Some badge_loading
  ∧ badgeText (onAnalyzeCart sample_cart (Some 7) navigated7) ≠ badgeText navigated7.
Proof.
  split_and!; try reflexivity.
  - by exists [AnalyzeCartMessage sample_cart (Some 7); TabUpdated 7 (Some (str "complete"))].
  - intros H. apply (f_equal (λ m : gmap Z jsstring, m !! 7)) in H. discriminate H.
Qed.

(** C6, amended: the listener writes the in-progress badge for every
    request that carries a usable tab id, whether [analyzeCart] accepts it
    or its guard ignores it (then nothing but the badge is written); the
    badge becomes success when the call completes, error when it fails,
    empty when a navigation completes; no other event changes it. *)
Theorem badge_set_at (st : State) (tabId : Z) :
  (∀ cartData, tabId ≠ 0 →
     badgeText (onAnalyzeCart cartData (Some tabId) st)
     = <[tabId := badge_loading]> (badgeText st))
  ∧ (∀ cartData, tabId ≠ 0 → isLoadingTab st tabId = true →
     onAnalyzeCart cartData (Some tabId) st
     = setBadgeBackgroundColor (str "#ff007f") tabId (setBadgeText badge_loading tabId st))
  ∧ (∀ r, (tabId, AwaitingJson) ∈ suspended st →
     ∃ st', step (JsonSettled tabId (JsonParsed r)) st = Some st'
       ∧ badgeText st' = <[tabId := badge_success]> (badgeText st))
  ∧ (∀ stage ev e, (tabId, stage) ∈ suspended st → CallFails tabId stage ev e →
     ∃ st', step ev st = Some st'
       ∧ badgeText st' = <[tabId := badge_error]> (badgeText st))
  ∧ badgeText (onUpdated tabId (Some (str "complete")) st)
    = <[tabId := badge_none]> (badgeText st)
  ∧ (∀ cartData sender, truthyTab sender = None →
     badgeText (onAnalyzeCart cartData sender st) = badgeText st)
  ∧ (∀ active st', step (GetAnalysisResultMessage active) st = Some st' →
     badgeText st' = badgeText st)
  ∧ (∀ status, status ≠ Some (str "complete") →
     badgeText (onUpdated tabId status st) = badgeText st)
  ∧ (∀ status statusText st', response_ok status = true →
     step (FetchSettled tabId (FetchResponse status statusText)) st = Some st' →
     badgeText st' = badgeText st).
Proof.
  split_and!.
  - intros cartData Hnz. unfold onAnalyzeCart. rewrite truthyTab_nonzero by done.
    simpl. unfold analyzeCart. by destruct (isLoadingTab st tabId).
  - intros cartData Hnz Hl. unfold onAnalyzeCart. rewrite truthyTab_nonzero by done.
    unfold analyzeCart. by rewrite Hl.
  - intros r Hin.
    destruct (resume_elem tabId AwaitingJson None _ Hin) as [l Hl].
    eexists. split; [simpl; unfold analyzeCart_afterJson; by rewrite Hl|]. done.
  - intros stage ev e Hin Hf.
    destruct (CallFails_step _ _ _ _ _ Hin Hf) as (l1 & l2 & _ & Hs).
    eexists. split; [exact Hs|]. done.
  - done.
  - intros cartData sender Hs. unfold onAnalyzeCart. by rewrite Hs.
  - by intros active st' [= <-].
  - intros [s|] Hs; simpl; [|done]. destruct (decide _) as [->|]; done.
  - intros status text st' Hok Hs. simpl in Hs. unfold analyzeCart_afterFetch in Hs.
    rewrite Hok in Hs.
    destruct (resume tabId AwaitingFetch (Some AwaitingJson) (suspended st));
      simpl in Hs; [|discriminate]. by injection Hs as <-.
Qed.

Lemma badge_set_at_witness :
  badgeText (onAnalyzeCart sample_cart (Some 7) navigated7)
  = <[7 := badge_loading]> (badgeText navigated7)
  ∧ onAnalyzeCart sample_cart (Some 7) navigated7
    = setBadgeBackgroundColor (str "#ff007f") 7 (setBadgeText badge_loading 7 navigated7).
Proof.
  destruct (badge_set_at navigated7 7) as (H1 & H2 & _).
  split; [apply H1; lia | apply H2; [lia | reflexivity]].
Defined.

(** ** Strings *)

Lemma startsWith_app (s r : jsstring) : startsWith (s ++ r) s = true.
Proof.
  induction s as [|c s IH]; [done|]. simpl. by rewrite N.eqb_refl, IH.
Qed.

Lemma includes_app (pre s post : jsstring) : includes (pre ++ s ++ post) s = true.
Proof.
  induction pre as [|c pre IH]; simpl.
  - destruct s as [|a s]; [by destruct post|].
    simpl. by rewrite N.eqb_refl, startsWith_app.
  - rewrite IH. apply orb_true_r.
Qed.

Lemma includes_suffix (pre s : jsstring) : includes (pre ++ s) s = true.
Proof. rewrite <- (app_nil_r s) at 1. apply includes_app. Qed.

(** ** Currency *)

(** C7, as stated, fails in both directions: a host that is not under a
    country-code domain but contains [.in] gets INR, not the baseline, and
    a host under a country-code domain other than [.in] gets the baseline
    USD whatever the country. *)
Lemma detectCurrency_not_by_country_code :
  isCountryCodeDomain (str "www.amazon.info") = false
  ∧ detectCurrency (str "www.amazon.info") = str "INR"
  ∧ isCountryCodeDomain (str "www.amazon.de") = true
  ∧ detectCurrency (str "www.amazon.de") = str "USD"
  ∧ ¬ (∀ hostname, isCountryCodeDomain hostname = false →
         detectCurrency hostname = str "USD").
Proof.
  split_and!; try reflexivity.
  intros H. by specialize (H (str "www.amazon.info") eq_refl).
Qed.

(** C7, amended: the currency of an extracted item never comes from the
    page; it is decided by the host name alone, INR when the host name
    contains [.in] anywhere (so for every host that ends with [.in]), USD
    for every other host name. *)
Theorem detectCurrency_by_substring (hostname : jsstring) :
  detectCurrency hostname
    = (if includes hostname (str ".in") then str "INR" else str "USD")
  ∧ (∀ pre, detectCurrency (pre ++ str ".in") = str "INR")
  ∧ (∀ platform doc item,
       item ∈ scrapeCartItems platform hostname doc →
       currency item = detectCurrency hostname).
Proof.
  split_and!; [done| |].
  - intros pre. unfold detectCurrency. by rewrite includes_suffix.
  - intros [platform|] doc item Hin; simpl in Hin; [|by apply elem_of_nil in Hin].
    apply list_elem_of_omap in Hin as (row & _ & Hrow).
    unfold scrapeRow in Hrow. repeat case_match; try discriminate.
    by injection Hrow as <-.
Qed.

(** ** Platform detection *)

(** C3, as stated, fails: on a host name that carries two retailer tokens
    the first adapter whose rule matches can be one that [detectPlatform]
    never tries. *)
Lemma detectPlatform_not_first_rule :
  identify_first_rule (str "https://amazon.flipkart.com/viewcart")
                      (str "amazon.flipkart.com") = Some flipkart
  ∧ detectPlatform (str "https://amazon.flipkart.com/viewcart")
                   (str "amazon.flipkart.com") = None.
Proof. split; reflexivity. Qed.

Lemma detectPlatform_first_host (url hostname : jsstring) :
  detectPlatform url hostname = identify_first_host url hostname.
Proof.
  unfold detectPlatform, identify_first_host, catalog.
  cbn [List.find retailerToken].
  repeat (destruct (includes hostname _); [reflexivity|]). reflexivity.
Qed.

Section FirstMatch.

Variables url hostname : jsstring.

Let hostMatch (a : Adapter) : bool := includes hostname (retailerToken a).

Let firstHost (l : list Adapter) : option Platform :=
  match List.find hostMatch l with
  | Some a => if cartPage a url then Some (adapter_platform a) else None
  | None => None
  end.

Let firstRule (l : list Adapter) : option Platform :=
  adapter_platform <$> List.find (λ a, matchRule a url hostname) l.

Lemma firstHost_sound l p : firstHost l = Some p → firstRule l = Some p.
Proof.
  unfold firstHost, firstRule, matchRule.
  induction l as [|a l IH]; simpl; [done|].
  fold (hostMatch a). destruct (hostMatch a); simpl; [|done].
  by destruct (cartPage a url).
Qed.

Lemma firstRule_no_host l :
  filter (λ a, hostMatch a = true) l = [] → firstRule l = None.
Proof.
  unfold firstRule, matchRule. induction l as [|a l IH]; simpl; [done|].
  rewrite filter_cons. fold (hostMatch a).
  destruct (decide (hostMatch a = true)) as [E|E]; [done|].
  apply not_true_is_false in E. rewrite E. simpl. exact IH.
Qed.

Lemma firstHost_complete l :
  (length (filter (λ a, hostMatch a = true) l) ≤ 1)%nat → firstHost l = firstRule l.
Proof.
  induction l as [|a l IH]; [done|]. rewrite filter_cons.
  destruct (decide (hostMatch a = true)) as [E|E].
  - simpl. intros Hlen.
    assert (Hrest : filter (λ a, hostMatch a = true) l = []).
    { apply length_zero_iff_nil. lia. }
    unfold firstHost, firstRule, matchRule. simpl. fold (hostMatch a). rewrite E. simpl.
    destruct (cartPage a url); [done|].
    symmetry. by apply firstRule_no_host.
  - intros Hlen. apply not_true_is_false in E.
    unfold firstHost, firstRule, matchRule in *. simpl. fold (hostMatch a).
    rewrite E. simpl. by apply IH.
Qed.

End FirstMatch.

(** C3, amended: [detectPlatform] returns the first adapter, in
    registration order, whose retailer token is in the host name, if the
    url passes that adapter's cart-page test, and nothing otherwise; later
    adapters are not tried.  An adapter it returns is the first one whose
    rule matches, it returns none when no rule matches, and when at most
    one retailer token is in the host name it is exactly the first
    adapter whose rule matches. *)
Theorem detectPlatform_identify (url hostname : jsstring) :
  detectPlatform url hostname = identify_first_host url hostname
  ∧ (∀ p, detectPlatform url hostname = Some p →
          identify_first_rule url hostname = Some p)
  ∧ (identify_first_rule url hostname = None → detectPlatform url hostname = None)
  ∧ ((length (filter (λ a, includes hostname (retailerToken a) = true) catalog) ≤ 1)%nat →
     detectPlatform url hostname = identify_first_rule url hostname).
Proof.
  rewrite detectPlatform_first_host. split_and!.
  - done.
  - intros p. apply firstHost_sound.
  - intros Hnone. destruct (identify_first_host url hostname) as [p|] eqn:E; [|done].
    apply firstHost_sound in E. unfold identify_first_rule in Hnone. congruence.
  - apply firstHost_complete.
Qed.

(** The cart pages of the six retailers. *)
Lemma detectPlatform_identify_witness :
  detectPlatform (str "https://www.amazon.in/gp/cart/view.html") (str "www.amazon.in")
    = Some amazon
  ∧ detectPlatform (str "https://www.flipkart.com/viewcart?otracker=Cart_Icon_Click")
      (str "www.flipkart.com") = Some flipkart
  ∧ detectPlatform (str "https://www.bigbasket.com/basket/") (str "www.bigbasket.com")
    = Some bigbasket
  ∧ detectPlatform (str "https://www.swiggy.com/instamart/cart") (str "www.swiggy.com")
    = Some swiggy
  ∧ detectPlatform (str "https://www.walmart.com/cart") (str "www.walmart.com")
    = Some walmart
  ∧ detectPlatform (str "https://www.target.com/cart") (str "www.target.com")
    = Some target
  ∧ detectPlatform (str "https://www.amazon.in/dp/B09XS7JWHH") (str "www.amazon.in") = None
  ∧ detectPlatform (str "https://example.org/cart") (str "example.org") = None.
Proof.
  split_and!;
    match goal with
    | |- detectPlatform ?u ?h = _ =>
        destruct (detectPlatform_identify u h) as (_ & _ & _ & ->);
        [reflexivity | vm_compute; lia]
    end.
Defined.

(** ** The page tree *)

Lemma Node_forall_ind (P : Node → Prop) :
  (∀ data, P (Text data)) →
  (∀ tag attrs children, Forall P children → P (Element tag attrs children)) →
  ∀ n, P n.
Proof.
  intros HT HE. fix IH 1. intros [tag attrs children|data]; [|apply HT].
  apply HE. induction children as [|k ks IHks]; constructor; [apply IH | exact IHks].
Qed.

Lemma elementsOf_Element path ancestors tag attrs children :
  elementsOf path ancestors (Element tag attrs children)
  = {| loc_path := path; loc_ancestors := ancestors;
       loc_tag := tag; loc_attrs := attrs; loc_children := children |}
    :: elementsOfChildren path ((tag, attrs) :: ancestors) 0 children.
Proof.
  simpl. f_equal. generalize 0%nat.
  induction children as [|k ks IH]; intros i; [done|]. simpl. by rewrite IH.
Qed.

Lemma appendChildAt_cons i path' child tag attrs children :
  appendChildAt (i :: path') child (Element tag attrs children)
  = Element tag attrs (appendInChild path' child i children).
Proof.
  simpl. f_equal. revert i.
  induction children as [|k ks IH]; intros i; [done|]. destruct i; [done|].
  simpl. by rewrite IH.
Qed.

Section Counting.

Variable P : jsstring → Attrs → bool.

Let holds (l : Located) : Prop := P (loc_tag l) (loc_attrs l) = true.

Lemma filter_holds_cons l ls :
  filter holds (l :: ls)
  = if P (loc_tag l) (loc_attrs l) then l :: filter holds ls else filter holds ls.
Proof.
  rewrite filter_cons. unfold holds at 1.
  destruct (decide _) as [E|E]; [by rewrite E|]. by apply not_true_is_false in E as ->.
Qed.

Lemma count_anywhere path ancestors n :
  length (filter holds (elementsOf path ancestors n)) = countElements P n.
Proof.
  unfold countElements. fold holds. generalize (@nil nat) (@nil (jsstring * Attrs)).
  revert path ancestors.
  induction n as [data|tag attrs children IH] using Node_forall_ind;
    intros path ancestors path' ancestors'; [done|].
  rewrite !elementsOf_Element, !filter_holds_cons. simpl.
  assert (E : ∀ i j p a p' a',
    length (filter holds (elementsOfChildren p a i children))
    = length (filter holds (elementsOfChildren p' a' j children))).
  { clear -IH. induction IH as [|k ks Hk _ IHks]; intros i j p a p' a'; [done|].
    simpl. rewrite !filter_app, !length_app.
    rewrite (Hk (p ++ [i]) a (p' ++ [j]) a'). f_equal. apply IHks. }
  destruct (P tag attrs); simpl;
    by rewrite (E 0%nat 0%nat path ((tag, attrs) :: ancestors)
                  path' ((tag, attrs) :: ancestors')).
Qed.

Lemma countElements_Element tag attrs children :
  countElements P (Element tag attrs children)
  = ((if P tag attrs then 1 else 0) + sum_list_with (countElements P) children)%nat.
Proof.
  unfold countElements at 1. fold holds.
  rewrite elementsOf_Element, filter_holds_cons. simpl.
  assert (E : ∀ i p a, length (filter holds (elementsOfChildren p a i children))
                       = sum_list_with (countElements P) children).
  { induction children as [|k ks IH]; intros i p a; [done|].
    simpl. rewrite filter_app, length_app, count_anywhere. f_equal. apply IH. }
  destruct (P tag attrs); simpl; by rewrite E.
Qed.

Lemma countElements_append path child n tag attrs children :
  nodeAt path n = Some (Element tag attrs children) →
  countElements P (appendChildAt path child n)
  = (countElements P n + countElements P child)%nat.
Proof.
  revert path. induction n as [data|t a ks IH] using Node_forall_ind; intros path Hat.
  - destruct path; simpl in Hat; discriminate.
  - destruct path as [|i path'].
    + simpl. rewrite !countElements_Element, sum_list_with_app. simpl. lia.
    + rewrite appendChildAt_cons, !countElements_Element. simpl in Hat.
      rewrite <- Nat.add_assoc. f_equal.
      revert i Hat. induction IH as [|k ks' Hk _ IHks]; intros i Hat; [done|].
      destruct i as [|i]; simpl in *.
      * rewrite (Hk path' Hat). lia.
      * rewrite (IHks i Hat). lia.
Qed.

End Counting.

(** Every listed element sits at its path. *)
Lemma elementsOf_nodeAt l path ancestors n :
  l ∈ elementsOf path ancestors n →
  ∃ q, loc_path l = path ++ q ∧ nodeAt q n = Some (loc_node l).
Proof.
  revert path ancestors.
  induction n as [data|tag attrs children IH] using Node_forall_ind;
    intros path ancestors Hin; [by apply elem_of_nil in Hin|].
  rewrite elementsOf_Element in Hin. apply elem_of_cons in Hin as [->|Hin].
  - exists []. by rewrite app_nil_r.
  - assert (E : ∀ i, l ∈ elementsOfChildren path ((tag, attrs) :: ancestors) i children →
        ∃ j q, loc_path l = path ++ (i + j)%nat :: q
               ∧ (k ← children !! j; nodeAt q k) = Some (loc_node l)).
    { clear Hin. induction IH as [|k ks Hk _ IHks]; intros i Hin;
        [by apply elem_of_nil in Hin|].
      simpl in Hin. apply elem_of_app in Hin as [Hin|Hin].
      - destruct (Hk _ _ Hin) as (q & Hq & Hat). exists 0%nat, q.
        rewrite Hq, <- app_assoc, Nat.add_0_r. done.
      - destruct (IHks _ Hin) as (j & q & Hq & Hat). exists (S j), q.
        rewrite Hq. split; [do 2 f_equal; lia | done]. }
    destruct (E 0%nat Hin) as (j & q & Hq & Hat). exists (j :: q). done.
Qed.

(** ** Injection of the button *)

Lemma matchesSelector_marker l :
  matchesSelector marker l = isTrigger (loc_tag l) (loc_attrs l).
Proof.
  unfold matchesSelector, marker, matchesComplex, matchesCompound, isTrigger. simpl.
  by rewrite !andb_true_r, orb_false_r.
Qed.

Lemma triggerControls_count doc :
  length (triggerControls doc) = countElements isTrigger doc.
Proof.
  unfold triggerControls, document_querySelectorAll, countElements. f_equal.
  apply list_filter_iff. intros l. by rewrite matchesSelector_marker.
Qed.

Lemma document_querySelector_nodeAt sel doc l :
  document_querySelector sel doc = Some l →
  nodeAt (loc_path l) doc = Some (loc_node l).
Proof.
  unfold document_querySelector, document_querySelectorAll. intros H.
  apply head_Some_elem_of, list_elem_of_filter in H as [_ H].
  by apply elementsOf_nodeAt in H as (q & -> & Hq).
Qed.

Lemma findTarget_nodeAt sels doc l :
  findTarget sels doc = Some l → nodeAt (loc_path l) doc = Some (loc_node l).
Proof.
  induction sels as [|sel sels IH]; simpl; [done|].
  destruct (document_querySelector sel doc) as [l'|] eqn:E; [|done].
  intros [= <-]. by eapply document_querySelector_nodeAt.
Qed.

Lemma childElements_lookup l i parent ks :
  l ∈ childElements i parent ks →
  ∃ j, loc_path l = loc_path parent ++ [(i + j)%nat] ∧ ks !! j = Some (loc_node l).
Proof.
  revert i. induction ks as [|k ks IH]; intros i Hin; [by apply elem_of_nil in Hin|].
  assert (Hrest : l ∈ childElements (S i) parent ks →
    ∃ j, loc_path l = loc_path parent ++ [(i + j)%nat] ∧ (k :: ks) !! j = Some (loc_node l)).
  { intros H. destruct (IH _ H) as (j & Hp & Hj). exists (S j).
    rewrite Hp. split; [do 2 f_equal; lia | done]. }
  destruct k as [t a c|d]; simpl in Hin; [|by apply Hrest].
  apply elem_of_cons in Hin as [->|Hin]; [|by apply Hrest].
  exists 0%nat. by rewrite Nat.add_0_r.
Qed.

Lemma document_body_nodeAt doc l :
  document_body doc = Some l → nodeAt (loc_path l) doc = Some (loc_node l).
Proof.
  destruct doc as [tag attrs children|d]; unfold document_body; [|done].
  case_decide; [|done]. intros Hb.
  apply head_Some_elem_of, list_elem_of_filter in Hb as [_ Hb].
  apply childElements_lookup in Hb as (j & Hp & Hj). simpl in Hp.
  rewrite Hp. simpl. by rewrite Hj.
Qed.

Lemma createAnalyzeButton_one_trigger platform :
  countElements isTrigger (createAnalyzeButton platform) = 1%nat.
Proof. reflexivity. Qed.

(** An attempt on a page that holds a trigger control returns at once. *)
Lemma tryInjectButton_present currentPlatform doc :
  triggerControls doc ≠ [] → tryInjectButton currentPlatform doc = (doc, true).
Proof.
  unfold tryInjectButton, document_querySelector, triggerControls.
  by destruct (document_querySelectorAll marker doc).
Qed.

(** An attempt either leaves the page alone or adds one trigger control
    to a page that had none. *)
Lemma tryInjectButton_cases currentPlatform doc :
  (tryInjectButton currentPlatform doc).1 = doc
  ∨ (triggerControls doc = []
     ∧ (tryInjectButton currentPlatform doc).2 = true
     ∧ length (triggerControls (tryInjectButton currentPlatform doc).1) = 1%nat).
Proof.
  unfold tryInjectButton.
  destruct (document_querySelector marker doc) as [l0|] eqn:Hm; [by left|].
  set (targetElement := match findTarget targets doc with
                        | Some l => Some l | None => document_body doc end).
  assert (Ht : ∀ l, targetElement = Some l → nodeAt (loc_path l) doc = Some (loc_node l)).
  { intros l. unfold targetElement.
    destruct (findTarget targets doc) as [l'|] eqn:E.
    - intros [= <-]. by eapply findTarget_nodeAt.
    - apply document_body_nodeAt. }
  destruct currentPlatform as [platform|]; [|by left].
  destruct targetElement as [l|]; [|by left]. right.
  assert (Hnone : triggerControls doc = []).
  { unfold document_querySelector in Hm. unfold triggerControls.
    by destruct (document_querySelectorAll marker doc). }
  split_and!; [done|done|]. simpl.
  rewrite triggerControls_count.
  erewrite countElements_append by (apply Ht; reflexivity).
  by rewrite <- triggerControls_count, Hnone, createAnalyzeButton_one_trigger.
Qed.

(** On a page without a trigger control that offers an element to append
    to, an attempt appends the button to that element. *)
Lemma tryInjectButton_absent platform doc :
  triggerControls doc = [] →
  is_Some (findTarget targets doc) ∨ is_Some (document_body doc) →
  ∃ l, nodeAt (loc_path l) doc = Some (loc_node l)
    ∧ tryInjectButton (Some platform) doc
      = (appendChildAt (loc_path l) (createAnalyzeButton platform) doc, true).
Proof.
  intros Hnone Htarget. unfold tryInjectButton, document_querySelector.
  fold (triggerControls doc). rewrite Hnone. cbn [head].
  destruct (findTarget targets doc) as [l|] eqn:Hf.
  - exists l. split; [by eapply findTarget_nodeAt | done].
  - destruct Htarget as [[l [=]]|[l Hb]]. rewrite Hb.
    exists l. split; [by apply document_body_nodeAt | done].
Qed.

(** On a page without a trigger control that offers nothing to append to,
    an attempt fails and leaves the page alone. *)
Lemma tryInjectButton_no_target currentPlatform doc :
  triggerControls doc = [] →
  findTarget targets doc = None →
  document_body doc = None →
  tryInjectButton currentPlatform doc = (doc, false).
Proof.
  intros Hnone Hf Hb. unfold tryInjectButton, document_querySelector.
  fold (triggerControls doc). rewrite Hnone, Hf, Hb. cbn [head].
  by destruct currentPlatform.
Qed.

(** C8, as stated, fails: two attempts in a row do not leave exactly one
    trigger control on every page.  On a document that has no [body] yet
    and no candidate container, both attempts end in the [catch] branch,
    return [false] and add nothing, so the page holds none.  On a page that
    already carries two elements with the marker class, both attempts
    return at once and the page still holds two. *)
Lemma tryInjectButton_not_always_one :
  tryInjectButton (Some amazon) bodiless_page = (bodiless_page, false)
  ∧ length (triggerControls
              (tryInjectButton (Some amazon)
                 (tryInjectButton (Some amazon) bodiless_page).1).1) = 0%nat
  ∧ tryInjectButton (Some amazon) two_marker_page = (two_marker_page, true)
  ∧ length (triggerControls
              (tryInjectButton (Some amazon)
                 (tryInjectButton (Some amazon) two_marker_page).1).1) = 2%nat
  ∧ ¬ (∀ platform doc,
         length (triggerControls
                   (tryInjectButton (Some platform)
                      (tryInjectButton (Some platform) doc).1).1) = 1%nat).
Proof.
  assert (H0 : length (triggerControls
              (tryInjectButton (Some amazon)
                 (tryInjectButton (Some amazon) bodiless_page).1).1) = 0%nat)
    by (vm_compute; reflexivity).
  split; [vm_compute; reflexivity|]. split; [exact H0|].
  split; [vm_compute; reflexivity|]. split; [vm_compute; reflexivity|].
  intros H. specialize (H amazon bodiless_page). rewrite H0 in H. discriminate H.
Qed.

(** C8, amended: injection is idempotent.  For every page, an attempt on a
    page that already holds an element with the marker returns at once and
    leaves the page as it is, and an attempt run right after an attempt
    never changes the page again, so two attempts leave as many trigger
    controls as one.  Two attempts in a row, or two calls of
    [waitForPageAndInject] on a fresh object, leave exactly one trigger
    control when the page holds at most one to begin with and, when it
    holds none, offers an element to append to (one of the candidates, or
    [document.body]): the first adds it unless it is there, the second
    finds it.  On a page that holds none and offers nothing to append to,
    both attempts fail and the page still holds none; on a page that holds
    some already, both attempts leave them as they are. *)
Theorem tryInjectButton_idempotent (platform : Platform) (doc : Node) :
  (∀ currentPlatform,
     (tryInjectButton currentPlatform (tryInjectButton currentPlatform doc).1).1
     = (tryInjectButton currentPlatform doc).1)
  ∧ (∀ currentPlatform,
       triggerControls doc ≠ [] → tryInjectButton currentPlatform doc = (doc, true))
  ∧ ((length (triggerControls doc) ≤ 1)%nat →
     (triggerControls doc = [] →
      is_Some (findTarget targets doc) ∨ is_Some (document_body doc)) →
     ∃ doc1,
       tryInjectButton (Some platform) doc = (doc1, true)
       ∧ tryInjectButton (Some platform) doc1 = (doc1, true)
       ∧ length (triggerControls doc1) = 1%nat
       ∧ waitForPageAndInject (newContent (Some platform)) doc
         = (newContent (Some platform), doc1, false)
       ∧ waitForPageAndInject (newContent (Some platform)) doc1
         = (newContent (Some platform), doc1, false))
  ∧ (triggerControls doc = [] →
     findTarget targets doc = None → document_body doc = None →
     tryInjectButton (Some platform) doc = (doc, false)
     ∧ length (triggerControls
                 (tryInjectButton (Some platform)
                    (tryInjectButton (Some platform) doc).1).1) = 0%nat)
  ∧ (∀ currentPlatform,
       triggerControls doc ≠ [] →
       length (triggerControls
                 (tryInjectButton currentPlatform
                    (tryInjectButton currentPlatform doc).1).1)
       = length (triggerControls doc)).
Proof.
  split_and!.
  - intros cp. destruct (tryInjectButton_cases cp doc) as [E|(_ & _ & Hone)].
    + by rewrite E.
    + rewrite tryInjectButton_present; [done|].
      intros Hnil. by rewrite Hnil in Hone.
  - intros cp. apply tryInjectButton_present.
  - intros Hle Htarget.
    assert (Hfirst : ∃ doc1, tryInjectButton (Some platform) doc = (doc1, true)
                             ∧ length (triggerControls doc1) = 1%nat).
    { destruct (triggerControls doc) as [|l0 ls] eqn:Hnone.
      - destruct (tryInjectButton_absent platform doc Hnone (Htarget eq_refl))
          as (l & Hat & E1).
        eexists. split; [exact E1|]. rewrite triggerControls_count.
        erewrite countElements_append by exact Hat.
        by rewrite <- triggerControls_count, Hnone, createAnalyzeButton_one_trigger.
      - exists doc. split.
        + apply tryInjectButton_present. by rewrite Hnone.
        + rewrite Hnone in *. simpl in *. lia. }
    destruct Hfirst as (doc1 & E1 & Hone).
    assert (E2 : tryInjectButton (Some platform) doc1 = (doc1, true)).
    { apply tryInjectButton_present. intros Hnil. by rewrite Hnil in Hone. }
    exists doc1. split_and!; try done.
    + unfold waitForPageAndInject. simpl. by rewrite E1.
    + unfold waitForPageAndInject. simpl. by rewrite E2.
  - intros Hnone Hf Hb.
    rewrite !(tryInjectButton_no_target (Some platform) doc Hnone Hf Hb).
    cbn [fst]. rewrite (tryInjectButton_no_target (Some platform) doc Hnone Hf Hb).
    cbn [fst]. by rewrite Hnone.
  - intros cp Hsome.
    rewrite !(tryInjectButton_present cp doc Hsome). cbn [fst].
    by rewrite (tryInjectButton_present cp doc Hsome).
Qed.

Lemma tryInjectButton_idempotent_witness :
  ∃ doc1,
    tryInjectButton (Some amazon) sample_page = (doc1, true)
    ∧ tryInjectButton (Some amazon) doc1 = (doc1, true)
    ∧ length (triggerControls doc1) = 1%nat.
Proof.
  destruct (tryInjectButton_idempotent amazon sample_page) as (_ & _ & H & _).
  destruct H as (doc1 & H1 & H2 & H3 & _).
  - vm_compute. lia.
  - intros _. left. vm_compute. eexists. reflexivity.
  - exists doc1. split; [exact H1 | split; [exact H2 | exact H3]].
Defined.

(** ** Extraction of the cart items *)

(** A number is greater than zero when it is a positive finite value or
    positive infinity. *)
Lemma gt_zero_cases (x : number) :
  gt_zero x = true ↔ x = S754_infinity false ∨ ∃ m e, x = S754_finite false m e.
Proof.
  destruct x as [s|[]| |[] m e]; simpl; split; try discriminate; eauto;
    try (intros [H|(m' & e' & H)]; discriminate).
Qed.

(** The two definitions differ on positive infinity only. *)
Lemma scrapeRow_wellFormedRow platform hostname row :
  (∀ t, rowPriceText platform row = Some t → parseFloat t ≠ S754_infinity false) →
  scrapeRow platform hostname row = itemOf hostname <$> wellFormedRow platform row.
Proof.
  intros Hinf. unfold scrapeRow, wellFormedRow, rowTitle, rowPriceText in *.
  destruct (querySelector (sel_title _) row) as [te|]; [|done].
  destruct (querySelector (sel_price _) row) as [pe|]; [|done]. simpl in *.
  specialize (Hinf _ eq_refl).
  set (p := parseFloat _) in *.
  destruct (bool_decide _); simpl; [done|].
  destruct p as [s|[]| |[] m e]; simpl; try done.
Qed.

Lemma noInfinitePrice_spec platform row :
  noInfinitePrice platform row = true →
  ∀ t, rowPriceText platform row = Some t → parseFloat t ≠ S754_infinity false.
Proof.
  unfold noInfinitePrice. intros H t Ht. rewrite Ht in H. intros E.
  rewrite E in H. discriminate H.
Qed.

(** C2, as stated, fails in both directions.  The only currency symbols
    removed are the rupee and dollar signs, so a well-formed row priced
    with another symbol is dropped although its price without the symbol
    is finite and positive; and a row whose price text reads as positive
    infinity is kept although that value is not finite. *)
Lemma scrapeCartItems_not_exactly_well_formed :
  scrapeCartItems (Some amazon) (str "www.amazon.co.uk") pound_page = []
  ∧ isFinite (parseFloat (str "12.50")) && gt_zero (parseFloat (str "12.50")) = true
  ∧ scrapeCartItems (Some amazon) (str "www.amazon.in") infinity_page
    = [ {| productTitle := str "Mystery box"; price := S754_infinity false;
           quantity := 1; currency := str "INR" |} ]
  ∧ isFinite (S754_infinity false) = false.
Proof. split_and!; vm_compute; reflexivity. Qed.

(** C2, amended: for every page the items are those of the container
    rows that are kept, in document order, each with quantity 1.  A row is
    dropped when its title element or its price element is missing, when
    its title is empty after trimming, or when its price text, with every
    rupee sign, dollar sign, comma and white-space character removed and
    no other currency symbol, does not start with a decimal number or
    gives a value that is not greater than zero; no other row is dropped.
    A row is kept, with that title and value, when both elements are
    there, the title is not empty and the value is finite and greater than
    zero.  On a page where no price reads as positive infinity the items
    are exactly those of the well-formed rows. *)
Theorem scrapeCartItems_well_formed_rows (platform : Platform) (hostname : jsstring)
    (doc : Node) :
  scrapeCartItems (Some platform) hostname doc
  = omap (scrapeRow platform hostname)
      (document_querySelectorAll (sel_container (platform_selectors platform)) doc)
  ∧ (∀ item, item ∈ scrapeCartItems (Some platform) hostname doc → quantity item = 1%N)
  ∧ (∀ row,
       rowTitle platform row = None ∨ rowPriceText platform row = None
       ∨ rowTitle platform row = Some []
       ∨ (∃ t, rowPriceText platform row = Some t
               ∧ (isNaN (parseFloat t) = true ∨ gt_zero (parseFloat t) = false)) →
       scrapeRow platform hostname row = None)
  ∧ (∀ row,
       scrapeRow platform hostname row = None →
       rowTitle platform row = None ∨ rowPriceText platform row = None
       ∨ rowTitle platform row = Some []
       ∨ (∃ t, rowPriceText platform row = Some t
               ∧ (isNaN (parseFloat t) = true ∨ gt_zero (parseFloat t) = false)))
  ∧ (∀ row item,
       scrapeRow platform hostname row = Some item →
       ∃ title t,
         rowTitle platform row = Some title ∧ title ≠ []
         ∧ rowPriceText platform row = Some t
         ∧ item = {| productTitle := title; price := parseFloat t; quantity := 1;
                     currency := detectCurrency hostname |})
  ∧ (∀ row title t,
       rowTitle platform row = Some title → title ≠ [] →
       rowPriceText platform row = Some t →
       isFinite (parseFloat t) = true → gt_zero (parseFloat t) = true →
       scrapeRow platform hostname row
       = Some {| productTitle := title; price := parseFloat t; quantity := 1;
                 currency := detectCurrency hostname |})
  ∧ ((∀ row t,
        row ∈ document_querySelectorAll (sel_container (platform_selectors platform)) doc →
        rowPriceText platform row = Some t → parseFloat t ≠ S754_infinity false) →
     scrapeCartItems (Some platform) hostname doc
     = itemOf hostname
         <$> omap (wellFormedRow platform)
               (document_querySelectorAll (sel_container (platform_selectors platform)) doc))
  ∧ parseFloat (trim (stripPriceChars (rupee :: str "1,299.00"))) = numberOfZ 1299
  ∧ parseFloat (trim (stripPriceChars (str "Free"))) = S754_nan.
Proof.
  assert (Hkept : ∀ row item,
       scrapeRow platform hostname row = Some item →
       ∃ title t,
         rowTitle platform row = Some title ∧ title ≠ []
         ∧ rowPriceText platform row = Some t
         ∧ item = {| productTitle := title; price := parseFloat t; quantity := 1;
                     currency := detectCurrency hostname |}).
  { intros row item. unfold scrapeRow, rowTitle, rowPriceText.
    destruct (querySelector (sel_title _) row) as [te|]; [|done].
    destruct (querySelector (sel_price _) row) as [pe|]; [|done].
    cbv zeta. case_bool_decide as Ht; [done|]. cbn [negb andb].
    destruct (negb (isNaN _) && gt_zero _); [|done].
    intros [= <-]. eexists _, _. split_and!; [reflexivity|exact Ht|reflexivity|reflexivity]. }
  split_and!.
  - reflexivity.
  - intros item Hin. unfold scrapeCartItems in Hin.
    apply list_elem_of_omap in Hin as (row & _ & Hrow).
    by destruct (Hkept row item Hrow) as (title & t & _ & _ & _ & ->).
  - intros row H. unfold scrapeRow, rowTitle, rowPriceText in *.
    destruct (querySelector (sel_title _) row) as [te|];
      [|by destruct (querySelector (sel_price _) row)].
    destruct (querySelector (sel_price _) row) as [pe|]; [|done].
    simpl in H.
    destruct H as [[=]|[[=]|[[= Ht]|(t & [= <-] & Hp)]]].
    + by rewrite Ht.
    + destruct Hp as [-> | ->]; by rewrite ?andb_false_r.
  - intros row. unfold scrapeRow, rowTitle, rowPriceText.
    destruct (querySelector (sel_title _) row) as [te|]; [|by left].
    destruct (querySelector (sel_price _) row) as [pe|]; [|by right; left].
    cbv zeta. case_bool_decide as Ht.
    { intros _. right; right; left. cbn [fmap option_fmap option_map]. by rewrite Ht. }
    cbn [negb andb].
    destruct (isNaN _) eqn:Hnan.
    { intros _. right; right; right. eexists. split; [reflexivity|]. by left. }
    cbn [negb andb].
    destruct (gt_zero _) eqn:Hpos; [done|].
    intros _. right; right; right. eexists. split; [reflexivity|]. by right.
  - exact Hkept.
  - intros row title t Ht Hne Hp Hfin Hpos. unfold scrapeRow, rowTitle, rowPriceText in *.
    destruct (querySelector (sel_title _) row) as [te|]; [|done].
    destruct (querySelector (sel_price _) row) as [pe|]; [|done].
    change (Some (trim (textContent (loc_node te))) = Some title) in Ht.
    change (Some (trim (stripPriceChars (textContent (loc_node pe)))) = Some t) in Hp.
    injection Ht as ->. injection Hp as ->.
    cbv zeta. rewrite Hpos. rewrite bool_decide_eq_false_2 by done.
    by destruct (parseFloat _).
  - unfold scrapeCartItems.
    induction (document_querySelectorAll _ doc) as [|row rows IH]; intros Hinf; [done|].
    simpl. rewrite (scrapeRow_wellFormedRow platform hostname row).
    + fold (omap (scrapeRow platform hostname) rows).
      fold (omap (wellFormedRow platform) rows).
      rewrite IH by (intros r t Hr; apply Hinf; by right).
      by destruct (wellFormedRow platform row).
    + intros t. apply Hinf. by left.
  - by vm_compute.
  - by vm_compute.
Qed.

Lemma scrapeCartItems_well_formed_rows_witness :
  scrapeCartItems (Some amazon) (str "www.amazon.in") sample_page
  = [ {| productTitle := str "Sony WH-1000XM5"; price := numberOfZ 29990;
         quantity := 1; currency := str "INR" |};
      {| productTitle := str "USB-C cable"; price := numberOfZ 1299;
         quantity := 1; currency := str "INR" |} ].
Proof.
  destruct (scrapeCartItems_well_formed_rows amazon (str "www.amazon.in") sample_page)
    as (_ & _ & _ & _ & _ & _ & H & _).
  rewrite H; [vm_compute; reflexivity|].
  intros row t Hrow Ht.
  assert (Hall : forallb (noInfinitePrice amazon)
                   (document_querySelectorAll (sel_container (platform_selectors amazon))
                      sample_page) = true) by (vm_compute; reflexivity).
  rewrite forallb_forall in Hall. apply list_elem_of_In in Hrow.
  exact (noInfinitePrice_spec amazon row (Hall row Hrow) t Ht).
Defined.

Lemma detectCurrency_by_substring_witness :
  detectCurrency (str "www.amazon.in") = str "INR"
  ∧ detectCurrency (str "www.flipkart.com") = str "USD"
  ∧ (∀ item, item ∈ scrapeCartItems (Some amazon) (str "www.amazon.in") sample_page →
             currency item = str "INR").
Proof.
  destruct (detectCurrency_by_substring (str "www.amazon.in")) as (H1 & _ & H2).
  destruct (detectCurrency_by_substring (str "www.flipkart.com")) as (H3 & _).
  split; [rewrite H1; reflexivity|]. split; [rewrite H3; reflexivity|].
  intros item Hin. rewrite (H2 (Some amazon) sample_page item Hin), H1. reflexivity.
Defined.

(* ===================================================================== *)
(** * Part IV: further properties of the scripts                          *)
(* ===================================================================== *)

(** ** Sessions are independent *)

Lemma resume_other tabId from to l l' t s :
  resume tabId from to l = Some l' → t ≠ tabId → (t, s) ∈ l' ↔ (t, s) ∈ l.
Proof.
  intros Hr Hne. apply resume_Some in Hr as (l1 & l2 & -> & ->).
  rewrite !elem_of_app, elem_of_cons.
  destruct to as [s'|]; simpl; rewrite ?elem_of_cons, ?elem_of_nil;
    intuition congruence.
Qed.

Lemma step_frame (ev : Event) (st st' : State) (t : Z) :
  step ev st = Some st' →
  eventTab ev ≠ Some t →
  analysisResults st' !! t = analysisResults st !! t
  ∧ analysisErrors st' !! t = analysisErrors st !! t
  ∧ loadingStates st' !! t = loadingStates st !! t
  ∧ badgeText st' !! t = badgeText st !! t
  ∧ badgeColor st' !! t = badgeColor st !! t
  ∧ (∀ s, (t, s) ∈ suspended st' ↔ (t, s) ∈ suspended st).
Proof.
  intros Hs Hev.
  { destruct ev as [payload sender|active|t0 status|t0 o|t0 o]; simpl in Hs, Hev.
    - injection Hs as <-. unfold onAnalyzeCart.
      destruct (truthyTab sender) as [t0|]; [|done].
      assert (t0 ≠ t) by congruence. unfold analyzeCart.
      destruct (isLoadingTab st t0); simpl;
        rewrite ?lookup_insert_ne, ?lookup_delete_ne by done; split_and!; try done.
      intros s. rewrite elem_of_app, list_elem_of_singleton. intuition congruence.
    - by injection Hs as <-.
    - injection Hs as <-. assert (t0 ≠ t) by congruence. unfold onUpdated.
      destruct status as [s0|]; [|done]. case_decide; [|done]. simpl.
      by rewrite lookup_insert_ne.
    - assert (t0 ≠ t) by congruence. unfold analyzeCart_afterFetch in Hs.
      destruct o as [status text|e]; [destruct (response_ok status)|];
        match type of Hs with
        | context [resume ?a ?b ?c ?d] => destruct (resume a b c d) as [l|] eqn:E
        end; simpl in Hs; try discriminate; injection Hs as <-; simpl;
        rewrite ?lookup_insert_ne by done; split_and!; try done;
        intros s; by eapply resume_other.
    - assert (t0 ≠ t) by congruence. unfold analyzeCart_afterJson in Hs.
      destruct (resume t0 AwaitingJson None (suspended st)) as [l|] eqn:E;
        simpl in Hs; [|discriminate].
      destruct o; injection Hs as <-; simpl;
        rewrite ?lookup_insert_ne by done; split_and!; try done;
        intros s; by eapply resume_other. }
Qed.

(** X1: an event about one tab leaves every other tab's session alone:
    its stored result, stored error, loading flag, badge and suspended
    activations are what they were. *)
Theorem step_other_tab (ev : Event) (st st' : State) (t : Z) :
  step ev st = Some st' →
  eventTab ev ≠ Some t →
  analysisResults st' !! t = analysisResults st !! t
  ∧ analysisErrors st' !! t = analysisErrors st !! t
  ∧ loadingStates st' !! t = loadingStates st !! t
  ∧ badgeText st' !! t = badgeText st !! t
  ∧ badgeColor st' !! t = badgeColor st !! t
  ∧ (∀ s, (t, s) ∈ suspended st' ↔ (t, s) ∈ suspended st)
  ∧ (∀ active, truthyTab active = Some t →
       getAnalysisResult active st' = getAnalysisResult active st).
Proof.
  intros Hs Hev.
  destruct (step_frame ev st st' t Hs Hev) as (H1 & H2 & H3 & H4 & H5 & H6).
  split_and!; try done.
  intros active Ha. unfold getAnalysisResult, isLoadingTab. by rewrite Ha, H1, H2, H3.
Qed.

(** A failure in tab 9 while tab 7 is waiting. *)
Lemma step_other_tab_witness :
  ∃ st', step (FetchSettled 9 (FetchRejected {| message := str "Failed to fetch" |}))
              (onAnalyzeCart sample_cart (Some 9) requesting7) = Some st'
    ∧ loadingStates st' !! 7 = Some true
    ∧ analysisErrors st' !! 7 = None.
Proof.
  eexists. split; [reflexivity|].
  destruct (step_other_tab
              (FetchSettled 9 (FetchRejected {| message := str "Failed to fetch" |}))
              (onAnalyzeCart sample_cart (Some 9) requesting7) _ 7 eq_refl)
    as (_ & H2 & H3 & _).
  - discriminate.
  - split; [rewrite H3 | rewrite H2]; reflexivity.
Defined.

(** ** One call in flight for a tab *)

(** X2: in every reachable state a tab has at most one suspended
    activation of [analyzeCart]; a tab has one exactly when its loading
    flag is set; and it is never tab [0]. *)
Theorem one_activation_per_tab (st : State) :
  reachable st →
  NoDup (suspended st).*1
  ∧ (∀ t s1 s2, (t, s1) ∈ suspended st → (t, s2) ∈ suspended st → s1 = s2)
  ∧ (∀ t, (∃ s, (t, s) ∈ suspended st) ↔ isLoadingTab st t = true)
  ∧ (∀ t s, (t, s) ∈ suspended st → t ≠ 0).
Proof.
  intros Hr. destruct (reachable_Inv _ Hr) as [H1 H2 H3 H4 H5].
  assert (Hfst : ∀ t, t ∈ (suspended st).*1 ↔ ∃ s, (t, s) ∈ suspended st).
  { intros t. rewrite list_elem_of_fmap. split.
    - intros ([t' s] & -> & Hin). by exists s.
    - intros (s & Hin). by exists (t, s). }
  split_and!; [done| | |].
  - intros t s1 s2 Hin1 Hin2.
    apply list_elem_of_lookup in Hin1 as [i Hi], Hin2 as [j Hj].
    assert (i = j).
    { eapply (NoDup_lookup _ i j t H1); rewrite list_lookup_fmap; [by rewrite Hi | by rewrite Hj]. }
    subst j. congruence.
  - intros t. by rewrite <- Hfst, H2.
  - intros t s Hin. apply H5, Hfst. by exists s.
Qed.

Lemma one_activation_per_tab_witness :
  NoDup (suspended (onAnalyzeCart sample_cart (Some 7) requesting7)).*1
  ∧ length (fetched (onAnalyzeCart sample_cart (Some 7) requesting7)) = 1%nat.
Proof.
  assert (Hr : reachable (onAnalyzeCart sample_cart (Some 7) requesting7)).
  { by exists [AnalyzeCartMessage sample_cart (Some 7);
               AnalyzeCartMessage sample_cart (Some 7)]. }
  destruct (one_activation_per_tab _ Hr) as (H & _).
  split; [exact H | reflexivity].
Defined.

(** X3: a request for a tab that is not loading is accepted whatever the
    session held: exactly one request goes to the endpoint, by POST, with
    the retailer, the items and the user context, the previous result and
    error are gone, and the snapshot of the tab reads loading with neither
    result nor error. *)
Theorem analyzeCart_accepted (st : State) (cartData : CartData) (t : Z) :
  t ≠ 0 →
  isLoadingTab st t = false →
  fetched (onAnalyzeCart cartData (Some t) st) = fetched st ++ [requestFor cartData]
  ∧ suspended (onAnalyzeCart cartData (Some t) st) = suspended st ++ [(t, AwaitingFetch)]
  ∧ getAnalysisResult (Some t) (onAnalyzeCart cartData (Some t) st)
    = {| isLoading := true; result := None; error := None |}
  ∧ badgeText (onAnalyzeCart cartData (Some t) st) !! t = Some badge_loading.
Proof.
  intros Hnz Hl. unfold getAnalysisResult, onAnalyzeCart.
  rewrite !truthyTab_nonzero by done. unfold analyzeCart. rewrite Hl.
  unfold isLoadingTab. simpl.
  by rewrite !lookup_delete_eq, !lookup_insert_eq.
Qed.

(** A new request for tab 7 after its analysis has completed. *)
Lemma analyzeCart_accepted_witness :
  getAnalysisResult (Some 7) (onAnalyzeCart sample_cart (Some 7) completed7)
  = {| isLoading := true; result := None; error := None |}
  ∧ length (fetched (onAnalyzeCart sample_cart (Some 7) completed7)) = 2%nat.
Proof.
  destruct (analyzeCart_accepted completed7 sample_cart 7) as (H1 & _ & H3 & _).
  - lia.
  - reflexivity.
  - split; [exact H3 | rewrite H1; reflexivity].
Defined.

(** X4: the call of a tab succeeding.  From any reachable state in which
    the tab waits for [fetch], a response with a status in 200-299 whose
    body parses ends with the result stored and no error, the loading
    flag false, the activation gone, the success badge, and a snapshot
    that reads not loading, that result, no error. *)
Theorem analyzeCart_completes (st : State) (t : Z) (status : N)
    (statusText : jsstring) (r : json) :
  reachable st →
  (t, AwaitingFetch) ∈ suspended st →
  response_ok status = true →
  ∃ st', run [ FetchSettled t (FetchResponse status statusText);
               JsonSettled t (JsonParsed r) ] st = Some st'
    ∧ getAnalysisResult (Some t) st'
      = {| isLoading := false; result := Some r; error := None |}
    ∧ (∀ s, (t, s) ∉ suspended st')
    ∧ badgeText st' !! t = Some badge_success
    ∧ fetched st' = fetched st.
Proof.
  intros Hr Hin Hok.
  destruct (resume_elem t AwaitingFetch (Some AwaitingJson) _ Hin) as [l Hl].
  pose proof Hl as Hl'. apply resume_Some in Hl' as (l1 & l2 & E & ->).
  set (st1 := with_suspended (l1 ++ [(t, AwaitingJson)] ++ l2) st).
  assert (Hs1 : step (FetchSettled t (FetchResponse status statusText)) st = Some st1).
  { simpl. unfold analyzeCart_afterFetch. by rewrite Hok, Hl. }
  assert (Hr1 : reachable st1) by by eapply reachable_step.
  pose proof (reachable_Inv _ Hr1) as HI1.
  assert (Hin1 : (t, AwaitingJson) ∈ suspended st1).
  { simpl. rewrite elem_of_app, elem_of_cons. auto. }
  destruct (resume_elem t AwaitingJson None _ Hin1) as [l' Hl2].
  pose proof Hl2 as Hl2'. apply resume_Some in Hl2' as (k1 & k2 & E1 & ->).
  destruct (suspended_split_fresh _ _ _ _ _ HI1 E1) as (Hfresh & Hmem & _).
  assert (Hload : isLoadingTab st1 t = true).
  { apply (inv_loading _ HI1), Hmem. by left. }
  destruct (inv_cleared _ HI1 _ Hload) as [_ Herr].
  assert (Hnz : t ≠ 0).
  { apply (inv_nonzero _ HI1), Hmem. by left. }
  eexists. split.
  { cbn [run]. rewrite Hs1. cbn [mbind option_bind]. cbn [run step].
    unfold analyzeCart_afterJson. rewrite Hl2. reflexivity. }
  split_and!.
  - unfold getAnalysisResult. rewrite truthyTab_nonzero by done.
    rewrite isLoadingTab_success. destruct (decide (t = t)); [|done]. simpl.
    change (analysisErrors st !! t) with (analysisErrors st1 !! t).
    by rewrite lookup_insert_eq, Herr.
  - intros s Hs. apply Hfresh. simpl in Hs. apply list_elem_of_fmap. by exists (t, s).
  - simpl. apply lookup_insert_eq.
  - done.
Qed.

Lemma analyzeCart_completes_witness :
  ∃ st', run [ FetchSettled 7 (FetchResponse 200 (str "OK"));
               JsonSettled 7 (JsonParsed sample_result) ] requesting7 = Some st'
    ∧ getAnalysisResult (Some 7) st'
      = {| isLoading := false; result := Some sample_result; error := None |}.
Proof.
  destruct (analyzeCart_completes requesting7 7 200 (str "OK") sample_result)
    as (st' & H1 & H2 & _).
  - exact requesting7_reachable.
  - simpl. apply list_elem_of_singleton. reflexivity.
  - reflexivity.
  - exists st'. split; [exact H1 | exact H2].
Defined.

(** ** Where network calls come from *)

(** X5: the only event that makes a network call is an [ANALYZE_CART]
    message from a usable tab that is not loading, and it makes exactly
    one.  Settlements, successful or failed, navigations and snapshot
    queries make none: a failed call is not retried. *)
Theorem fetch_only_on_accepted_request (ev : Event) (st st' : State) :
  step ev st = Some st' →
  fetched st' = fetched st
  ∨ ∃ cartData sender t,
      ev = AnalyzeCartMessage cartData sender
      ∧ truthyTab sender = Some t
      ∧ isLoadingTab st t = false
      ∧ fetched st' = fetched st ++ [requestFor cartData].
Proof.
  intros Hs. destruct ev as [payload sender|active|t0 status|t0 o|t0 o]; simpl in Hs.
  - injection Hs as <-. unfold onAnalyzeCart.
    destruct (truthyTab sender) as [t|] eqn:Ht; [|by left].
    unfold analyzeCart. destruct (isLoadingTab st t) eqn:Hl; [by left|].
    right. by exists payload, sender, t.
  - left. by injection Hs as <-.
  - left. injection Hs as <-. unfold onUpdated.
    destruct status as [s|]; [|done]. by case_decide.
  - left. unfold analyzeCart_afterFetch in Hs.
    destruct o as [status text|e]; [destruct (response_ok status)|];
      match type of Hs with
      | context [resume ?a ?b ?c ?d] => destruct (resume a b c d) as [l|]
      end; simpl in Hs; try discriminate; by injection Hs as <-.
  - left. unfold analyzeCart_afterJson in Hs.
    destruct (resume t0 AwaitingJson None (suspended st)) as [l|];
      simpl in Hs; [|discriminate].
    destruct o; by injection Hs as <-.
Qed.

(** The call of tab 7 failing: nothing is sent again. *)
Lemma fetch_only_on_accepted_request_witness :
  ∃ st', step (FetchSettled 7 (FetchResponse 503 (str "Service Unavailable")))
              requesting7 = Some st'
    ∧ fetched st' = fetched requesting7.
Proof.
  eexists. split; [reflexivity|].
  destruct (fetch_only_on_accepted_request
              (FetchSettled 7 (FetchResponse 503 (str "Service Unavailable")))
              requesting7 _ eq_refl) as [H|(c & s & t & [=] & _)].
  exact H.
Defined.

(** ** What a snapshot can show *)

(** X6: in every reachable state a snapshot that reads loading carries
    neither a result nor an error, whichever tab is active. *)
Theorem loading_snapshot_is_bare (st : State) (active : option Z) :
  reachable st →
  isLoading (getAnalysisResult active st) = true →
  result (getAnalysisResult active st) = None
  ∧ error (getAnalysisResult active st) = None.
Proof.
  intros Hr. unfold getAnalysisResult.
  destruct (truthyTab active) as [t|]; simpl; [|discriminate].
  apply (inv_cleared _ (reachable_Inv _ Hr)).
Qed.

Lemma loading_snapshot_is_bare_witness :
  getAnalysisResult (Some 7) (onAnalyzeCart sample_cart (Some 7) completed7)
  = {| isLoading := true; result := None; error := None |}.
Proof.
  assert (Hr : reachable (onAnalyzeCart sample_cart (Some 7) completed7)).
  { by exists [AnalyzeCartMessage sample_cart (Some 7);
               FetchSettled 7 (FetchResponse 200 (str "OK"));
               JsonSettled 7 (JsonParsed sample_result);
               AnalyzeCartMessage sample_cart (Some 7)]. }
  destruct (loading_snapshot_is_bare _ (Some 7) Hr eq_refl) as [H1 H2].
  reflexivity.
Defined.

(** ** A call is never cancelled *)

Lemma step_keeps_loading ev st st' t :
  step ev st = Some st' → ¬ settles ev t →
  isLoadingTab st t = true → isLoadingTab st' t = true.
Proof.
  intros Hs Hns Hl.
  destruct (decide (eventTab ev = Some t)) as [Hev|Hev].
  - destruct ev as [payload sender|active|t0 status|t0 o|t0 o]; simpl in *.
    + injection Hs as <-. unfold onAnalyzeCart. rewrite Hev.
      unfold analyzeCart. by rewrite Hl.
    + discriminate.
    + injection Hs as <-. unfold onUpdated.
      destruct status as [s|]; [|done]. by case_decide.
    + injection Hev as ->. done.
    + injection Hev as ->. done.
  - destruct (step_frame ev st st' t Hs Hev) as (_ & _ & H & _).
    unfold isLoadingTab in *. by rewrite H.
Qed.

(** X7: once a tab is loading it stays loading, with no result and no
    error, through any events that are not a settlement of its own call:
    further requests for it, navigations, queries, and whatever happens to
    other tabs. *)
Theorem loading_until_settled (st st' : State) (t : Z) (evs : list Event) :
  reachable st →
  isLoadingTab st t = true →
  Forall (λ ev, ¬ settles ev t) evs →
  run evs st = Some st' →
  isLoadingTab st' t = true
  ∧ getAnalysisResult (Some t) st'
    = {| isLoading := true; result := None; error := None |}.
Proof.
  intros Hr Hl Hall Hrun.
  assert (H : reachable st' ∧ isLoadingTab st' t = true).
  { revert st Hr Hl Hrun. induction Hall as [|ev evs Hev _ IH]; intros st Hr Hl Hrun.
    - by injection Hrun as <-.
    - simpl in Hrun. destruct (step ev st) as [st1|] eqn:Hs; [|discriminate].
      simpl in Hrun. eapply IH; [by eapply reachable_step | | exact Hrun].
      by eapply step_keeps_loading. }
  destruct H as [Hr' Hl']. split; [done|].
  pose proof (reachable_Inv _ Hr') as HI.
  destruct (inv_cleared _ HI _ Hl') as [Hres Herr].
  assert (Hnz : t ≠ 0) by (apply (inv_nonzero _ HI), (inv_loading _ HI), Hl').
  unfold getAnalysisResult. rewrite truthyTab_nonzero by done.
  by rewrite Hl', Hres, Herr.
Qed.

Lemma loading_until_settled_witness :
  isLoadingTab
    (default initial
       (run [ AnalyzeCartMessage sample_cart (Some 7);
              TabUpdated 7 (Some (str "complete"));
              AnalyzeCartMessage sample_cart (Some 9);
              FetchSettled 9 (FetchRejected {| message := str "Failed to fetch" |}) ]
            requesting7)) 7 = true.
Proof.
  apply (loading_until_settled requesting7 _ 7
           [ AnalyzeCartMessage sample_cart (Some 7);
             TabUpdated 7 (Some (str "complete"));
             AnalyzeCartMessage sample_cart (Some 9);
             FetchSettled 9 (FetchRejected {| message := str "Failed to fetch" |}) ]).
  - exact requesting7_reachable.
  - reflexivity.
  - repeat (apply Forall_cons_2 || apply Forall_nil_2); cbn [settles]; try tauto.
    intros H. discriminate H.
  - vm_compute. reflexivity.
Defined.

(** ** Trimming and the price clean-up *)

Lemma trimStart_head (s : jsstring) :
  match trimStart s with
  | [] => True
  | c :: _ => isWhiteSpace c = false
  end.
Proof.
  induction s as [|c s IH]; [done|]. simpl.
  destruct (isWhiteSpace c) eqn:E; [exact IH | exact E].
Qed.

Lemma trimStart_fixed (s : jsstring) :
  match s with [] => True | c :: _ => isWhiteSpace c = false end →
  trimStart s = s.
Proof. destruct s as [|c s]; [done|]. simpl. by intros ->. Qed.

Lemma trimStart_snoc (r : jsstring) (h : N) :
  isWhiteSpace h = false → ∃ r', trimStart (r ++ [h]) = r' ++ [h].
Proof.
  intros Hh. induction r as [|c r IH]; simpl.
  - rewrite Hh. by exists [].
  - destruct (isWhiteSpace c); [exact IH | by exists (c :: r)].
Qed.

(** A trimmed string neither starts nor ends with white space. *)
Lemma trim_ends (s : jsstring) :
  match trim s with [] => True | c :: _ => isWhiteSpace c = false end
  ∧ match rev (trim s) with [] => True | c :: _ => isWhiteSpace c = false end.
Proof.
  unfold trim, trimEnd. pose proof (trimStart_head s) as Hh.
  destruct (trimStart s) as [|h t]; [done|].
  split.
  - change (h :: t) with ([h] ++ t). rewrite rev_app_distr. simpl.
    destruct (trimStart_snoc (rev t) h Hh) as [r' ->].
    rewrite rev_app_distr. exact Hh.
  - rewrite rev_involutive. apply trimStart_head.
Qed.

Lemma trim_fixed (s : jsstring) :
  match s with [] => True | c :: _ => isWhiteSpace c = false end →
  match rev s with [] => True | c :: _ => isWhiteSpace c = false end →
  trim s = s.
Proof.
  intros H1 H2. unfold trim, trimEnd.
  rewrite (trimStart_fixed s H1), (trimStart_fixed (rev s) H2).
  apply rev_involutive.
Qed.

Lemma trim_idempotent (s : jsstring) : trim (trim s) = trim s.
Proof. destruct (trim_ends s). by apply trim_fixed. Qed.

Lemma stripPriceChars_Forall (s : jsstring) :
  Forall (λ c, c ≠ rupee ∧ c ≠ dollar ∧ c ≠ comma ∧ isWhiteSpace c = false)
    (stripPriceChars s).
Proof.
  unfold stripPriceChars. apply Forall_forall. intros c Hc.
  apply list_elem_of_filter in Hc as [Hc _]. apply Is_true_true in Hc.
  apply negb_true_iff in Hc.
  rewrite !orb_false_iff in Hc. destruct Hc as (((H1 & H2) & H3) & H4).
  apply N.eqb_neq in H1, H2, H3. done.
Qed.

Lemma stripPriceChars_trim (s : jsstring) :
  trim (stripPriceChars s) = stripPriceChars s.
Proof.
  assert (Hhead : ∀ l, Forall (λ c, c ≠ rupee ∧ c ≠ dollar ∧ c ≠ comma
                                     ∧ isWhiteSpace c = false) l →
                  match l with [] => True | c :: _ => isWhiteSpace c = false end).
  { intros [|c l] Hl; [done|]. by apply Forall_cons in Hl as [(_ & _ & _ & Hc) _]. }
  apply trim_fixed; apply Hhead; [apply stripPriceChars_Forall|].
  apply Forall_forall. intros c Hc.
  pose proof (stripPriceChars_Forall s) as H. rewrite Forall_forall in H. apply H.
  apply list_elem_of_In. apply in_rev. by apply list_elem_of_In.
Qed.

(** X8: what the price clean-up leaves.  The cleaned text holds no rupee
    sign, dollar sign, comma or white-space character; the [trim()] that
    follows the [replace] never changes it, nor does the white-space
    skipping of [parseFloat]; and cleaning twice is cleaning once. *)
Theorem stripPriceChars_clean (s : jsstring) :
  Forall (λ c, c ≠ rupee ∧ c ≠ dollar ∧ c ≠ comma ∧ isWhiteSpace c = false)
    (stripPriceChars s)
  ∧ trim (stripPriceChars s) = stripPriceChars s
  ∧ trimStart (stripPriceChars s) = stripPriceChars s
  ∧ stripPriceChars (stripPriceChars s) = stripPriceChars s.
Proof.
  pose proof (stripPriceChars_Forall s) as H.
  assert (Hrev : Forall (λ c, c ≠ rupee ∧ c ≠ dollar ∧ c ≠ comma ∧ isWhiteSpace c = false)
                   (rev (stripPriceChars s))).
  { apply Forall_forall. intros c Hc. rewrite Forall_forall in H. apply H.
    apply list_elem_of_In. apply in_rev. by apply list_elem_of_In. }
  assert (Hhead : ∀ l, Forall (λ c, c ≠ rupee ∧ c ≠ dollar ∧ c ≠ comma
                                     ∧ isWhiteSpace c = false) l →
                  match l with [] => True | c :: _ => isWhiteSpace c = false end).
  { intros [|c l] Hl; [done|]. by apply Forall_cons in Hl as [(_ & _ & _ & Hc) _]. }
  split_and!.
  - exact H.
  - apply trim_fixed; by apply Hhead.
  - apply trimStart_fixed. by apply Hhead.
  - unfold stripPriceChars at 1. revert H. generalize (stripPriceChars s).
    intros l H. induction H as [|c l (H1 & H2 & H3 & H4) _ IH]; [done|].
    rewrite filter_cons. apply N.eqb_neq in H1, H2, H3.
    rewrite H1, H2, H3, H4. simpl. by rewrite IH.
Qed.

(** ** What a scraped item is *)

Lemma omap_length_le {A B} (f : A → option B) (l : list A) :
  (length (omap f l) ≤ length l)%nat.
Proof.
  induction l as [|x l IH]; [done|]. simpl.
  destruct (f x); simpl; fold (omap f l); lia.
Qed.

(** X9: every item [scrapeCartItems] returns has a title that is not
    empty and carries no white space at either end, a price that is a
    number greater than zero, quantity 1, and the currency INR or USD;
    and there are never more items than container rows. *)
Theorem scrapeCartItems_items (currentPlatform : option Platform)
    (hostname : jsstring) (doc : Node) :
  (∀ item, item ∈ scrapeCartItems currentPlatform hostname doc →
     productTitle item ≠ []
     ∧ trim (productTitle item) = productTitle item
     ∧ isNaN (price item) = false
     ∧ gt_zero (price item) = true
     ∧ quantity item = 1%N
     ∧ (currency item = str "INR" ∨ currency item = str "USD"))
  ∧ (∀ platform, currentPlatform = Some platform →
       (length (scrapeCartItems currentPlatform hostname doc)
        ≤ length (document_querySelectorAll
                    (sel_container (platform_selectors platform)) doc))%nat)
  ∧ (currentPlatform = None → scrapeCartItems currentPlatform hostname doc = []).
Proof.
  split_and!.
  - intros item Hin. destruct currentPlatform as [platform|];
      [|by apply elem_of_nil in Hin].
    apply list_elem_of_omap in Hin as (row & _ & Hrow). unfold scrapeRow in Hrow.
    destruct (querySelector (sel_title _) row) as [te|]; [|discriminate].
    destruct (querySelector (sel_price _) row) as [pe|]; [|discriminate].
    cbv zeta in Hrow.
    destruct (negb (bool_decide (trim (textContent (loc_node te)) = []))) eqn:Ht;
      [|discriminate].
    destruct (negb (isNaN _)) eqn:Hn; [|discriminate].
    destruct (gt_zero _) eqn:Hp; [|discriminate].
    injection Hrow as <-. cbn [productTitle price quantity currency].
    apply negb_true_iff, bool_decide_eq_false in Ht. apply negb_true_iff in Hn.
    split_and!; try done.
    + apply trim_idempotent.
    + unfold detectCurrency. destruct (includes hostname _); auto.
  - intros platform ->. simpl. apply omap_length_le.
  - by intros ->.
Qed.

Lemma scrapeCartItems_items_witness :
  Forall (λ item, trim (productTitle item) = productTitle item
                  ∧ gt_zero (price item) = true)
    (scrapeCartItems (Some amazon) (str "www.amazon.in") sample_page)
  ∧ (length (scrapeCartItems (Some amazon) (str "www.amazon.in") sample_page) ≤ 5)%nat.
Proof.
  destruct (scrapeCartItems_items (Some amazon) (str "www.amazon.in") sample_page)
    as (H1 & H2 & _).
  split.
  - apply Forall_forall. intros item Hin.
    destruct (H1 item Hin) as (_ & Ht & _ & Hp & _). split; [exact Ht | exact Hp].
  - etrans; [apply (H2 amazon eq_refl) | vm_compute; lia].
Defined.

(** ** Prices that [parseFloat] reads *)

Lemma isDigit_range (c : N) : isDigit c = true → (48 ≤ c ≤ 57)%N.
Proof. unfold isDigit. rewrite andb_true_iff, !N.leb_le. lia. Qed.

Lemma isDigit_plain (c : N) :
  isDigit c = true →
  isWhiteSpace c = false ∧ c ≠ 43%N ∧ c ≠ 45%N ∧ c ≠ 73%N.
Proof.
  intros H. apply isDigit_range in H.
  assert (Hc : (c = 48 ∨ c = 49 ∨ c = 50 ∨ c = 51 ∨ c = 52 ∨ c = 53 ∨ c = 54
                ∨ c = 55 ∨ c = 56 ∨ c = 57)%N) by lia.
  repeat destruct Hc as [->|Hc]; try subst c; split_and!; done.
Qed.

Lemma spanDigits_all (ds : jsstring) :
  Forall (λ c, isDigit c = true) ds → spanDigits ds = (ds, []).
Proof. induction 1 as [|c ds Hc _ IH]; [done|]. simpl. by rewrite Hc, IH. Qed.

Lemma spanDigits_digits (s : jsstring) :
  Forall (λ c, isDigit c = true) (spanDigits s).1.
Proof.
  induction s as [|c s IH]; [constructor|]. simpl.
  destruct (isDigit c) eqn:E; [|constructor].
  destruct (spanDigits s) as [ds r]. simpl in *. by constructor.
Qed.

Lemma digitsValue_nonneg (ds : jsstring) :
  Forall (λ c, isDigit c = true) ds → 0 ≤ digitsValue ds.
Proof.
  intros H. unfold digitsValue.
  assert (Hacc : ∀ acc, 0 ≤ acc →
            0 ≤ fold_left (λ acc c, 10 * acc + (Z.of_N c - 48)) ds acc).
  { induction H as [|c ds Hc _ IH]; intros acc Hacc; [done|]. simpl.
    apply IH. apply isDigit_range in Hc. lia. }
  apply Hacc. lia.
Qed.

Lemma decimalToNumber_integer (v : Z) : decimalToNumber false v 0 = numberOfZ v.
Proof.
  unfold decimalToNumber. destruct (Z.eqb_spec v 0) as [->|Hv]; [reflexivity|].
  rewrite (Z.leb_refl 0), Z.pow_0_r, Z.mul_1_r. reflexivity.
Qed.

(** [parseFloat] on a run of digits. *)
Lemma parseFloat_digits (ds : jsstring) :
  ds ≠ [] → Forall (λ c, isDigit c = true) ds →
  parseFloat ds = numberOfZ (digitsValue ds).
Proof.
  intros Hne Hds. destruct ds as [|c ds]; [done|].
  pose proof Hds as Hc. apply Forall_cons in Hc as [Hc _].
  destruct (isDigit_plain c Hc) as (Hws & Hplus & Hminus & HI).
  unfold parseFloat.
  rewrite (trimStart_fixed (c :: ds)) by exact Hws.
  assert (Hsign : takeSign (c :: ds) = (false, c :: ds)).
  { unfold takeSign. destruct c as [|p]; [done|].
    do 7 (destruct p as [p|p|]; try done). }
  rewrite Hsign.
  assert (Hinf : startsWith (c :: ds) (str "Infinity") = false).
  { change (str "Infinity") with (73%N :: str "nfinity"). cbn [startsWith].
    apply andb_false_iff. left. apply N.eqb_neq. congruence. }
  rewrite Hinf, (spanDigits_all _ Hds). cbv beta iota zeta.
  rewrite app_nil_r. change (exponentPart [] - Z.of_nat (length (@nil N))) with 0.
  apply decimalToNumber_integer.
Qed.

(** X10: a price written as digits, with any rupee signs, dollar signs,
    commas and white space around and between them, is read as exactly
    that whole number. *)
Theorem price_of_digits (text : jsstring) :
  stripPriceChars text ≠ [] →
  Forall (λ c, isDigit c = true) (stripPriceChars text) →
  parseFloat (trim (stripPriceChars text))
  = numberOfZ (digitsValue (stripPriceChars text)).
Proof.
  intros Hne Hds. rewrite stripPriceChars_trim. by apply parseFloat_digits.
Qed.

Lemma price_of_digits_witness :
  parseFloat (trim (stripPriceChars (32%N :: rupee :: str "1,29,900 ")))
  = numberOfZ 129900.
Proof.
  rewrite price_of_digits.
  - vm_compute. reflexivity.
  - vm_compute. discriminate.
  - vm_compute. repeat constructor.
Defined.

Lemma binary_round_aux_negative (mx ex : Z) (lx : location) :
  gt_zero (binary_round_aux 53 1024 true mx ex lx) = false.
Proof.
  unfold binary_round_aux.
  destruct (shr_fexp 53 1024 mx ex lx) as [mrs' e'].
  destruct (shr_fexp 53 1024 _ e' loc_Exact) as [mrs'' e''].
  destruct (shr_m mrs'') as [|m|m]; [done| |done].
  by destruct (Z.leb e'' _).
Qed.

Lemma decimalToNumber_negative (m e : Z) :
  0 ≤ m → gt_zero (decimalToNumber true m e) = false.
Proof.
  intros Hm. unfold decimalToNumber.
  destruct (Z.eqb_spec m 0) as [->|Hne]; [done|].
  destruct (Z.leb_spec 0 e) as [He|He].
  - assert (Hpos : 0 < m * 10 ^ e).
    { apply Z.mul_pos_pos; [lia|]. by apply Z.pow_pos_nonneg. }
    destruct (m * 10 ^ e) as [|p|p]; [lia| |lia].
    change (- Z.pos p) with (Z.neg p). unfold binary_normalize, binary_round.
    destruct (shl_align _ _ _) as [mz ez]. apply binary_round_aux_negative.
  - cbv zeta. apply binary_round_aux_negative.
Qed.

(** A text that starts with a minus sign is never read as a number
    greater than zero. *)
Lemma parseFloat_minus (s : jsstring) : gt_zero (parseFloat (45%N :: s)) = false.
Proof.
  unfold parseFloat.
  change (trimStart (45%N :: s)) with (45%N :: s).
  change (takeSign (45%N :: s)) with (true, s). cbv beta iota.
  destruct (startsWith s (str "Infinity")); [done|].
  pose proof (spanDigits_digits s) as Hip.
  destruct (spanDigits s) as [ip r1]. simpl in Hip.
  assert (Hfp : ∀ fp r2,
            match r1 with 46%N :: r => spanDigits r | _ => ([], r1) end = (fp, r2) →
            Forall (λ c, isDigit c = true) fp).
  { intros fp r2 E. destruct r1 as [|c r]; [by injection E as <- _|].
    destruct (N.eq_dec c 46%N) as [->|Hc].
    - pose proof (spanDigits_digits r) as H. rewrite E in H. exact H.
    - assert (fp = []) as ->; [|constructor].
      destruct c as [|p]; [by injection E as <- _|].
      do 6 (destruct p as [p|p|]; try by injection E as <- _).
      all: try by injection E as <- _. all: congruence. }
  destruct (match r1 with 46%N :: r => spanDigits r | _ => ([], r1) end)
    as [fp r2] eqn:E.
  specialize (Hfp fp r2 eq_refl).
  assert (Hv : 0 ≤ digitsValue (ip ++ fp)).
  { apply digitsValue_nonneg, Forall_app. by split. }
  destruct ip as [|c ip], fp as [|d fp]; try done; by apply decimalToNumber_negative.
Qed.

(** X11: a row whose cleaned price text starts with a minus sign (a
    discount line, say) is never turned into an item, whatever follows the
    sign. *)
Theorem scrapeRow_negative_price (platform : Platform) (hostname : jsstring)
    (row : Located) (rest : jsstring) :
  rowPriceText platform row = Some (45%N :: rest) →
  scrapeRow platform hostname row = None.
Proof.
  unfold rowPriceText, scrapeRow. intros H.
  destruct (querySelector (sel_title _) row) as [te|];
    [|by destruct (querySelector (sel_price _) row)].
  destruct (querySelector (sel_price _) row) as [pe|]; [|done].
  change (Some (trim (stripPriceChars (textContent (loc_node pe)))) = Some (45%N :: rest))
    in H.
  injection H as H. cbv zeta. rewrite H, parseFloat_minus. by rewrite andb_false_r.
Qed.

Lemma scrapeRow_negative_price_witness :
  scrapeCartItems (Some amazon) (str "www.amazon.in")
    (cartPageOf [ cartRow "1" (str "Coupon") (str "-" ++ rupee :: str "150.00") ]) = [].
Proof.
  assert (Hb : forallb (λ row, bool_decide (rowPriceText amazon row
                                            = Some (45%N :: str "150.00")))
            (document_querySelectorAll (sel_container (platform_selectors amazon))
               (cartPageOf [ cartRow "1" (str "Coupon")
                               (str "-" ++ rupee :: str "150.00") ])) = true)
    by (vm_compute; reflexivity).
  unfold scrapeCartItems. revert Hb.
  generalize (document_querySelectorAll (sel_container (platform_selectors amazon))
                (cartPageOf [ cartRow "1" (str "Coupon")
                                (str "-" ++ rupee :: str "150.00") ])).
  intros rows Hb. induction rows as [|row rows IH]; [reflexivity|].
  cbn [forallb] in Hb. apply andb_true_iff in Hb as [Hrow Hb].
  apply bool_decide_eq_true in Hrow.
  cbn [omap list_omap].
  rewrite (scrapeRow_negative_price amazon (str "www.amazon.in") row _ Hrow).
  by apply IH.
Defined.

(** ** The content script and the popup agree on cart pages *)

Lemma includes_nonempty (s needle : jsstring) :
  needle ≠ [] → includes s needle = true → s ≠ [].
Proof. intros Hn H ->. by destruct needle. Qed.

(** X12: when [detectPlatform] recognises a page, the platform is one of
    the six, its id occurs in the host name, and the popup's [isCartPage]
    accepts the same url: the popup never turns away a page on which the
    content script is active. *)
Theorem detectPlatform_isCartPage (url hostname : jsstring) (p : Platform) :
  detectPlatform url hostname = Some p →
  p ∈ [amazon; flipkart; bigbasket; swiggy; walmart; target]
  ∧ includes hostname (platform_id p) = true
  ∧ isCartPage (Some url) = true.
Proof.
  unfold detectPlatform. intros H.
  assert (Hcart : ∀ pattern, In pattern cartPatterns → includes url pattern = true →
                  isCartPage (Some url) = true).
  { intros pattern Hin Hp. unfold isCartPage.
    assert (Hne : pattern ≠ []).
    { intros ->. unfold cartPatterns in Hin. cbn [In] in Hin.
      repeat destruct Hin as [Hin|Hin]; try discriminate Hin. done. }
    rewrite bool_decide_eq_false_2 by by apply (includes_nonempty _ pattern).
    apply existsb_exists. by exists pattern. }
  assert (H1 : includes url (str "/cart") = true → isCartPage (Some url) = true).
  { apply Hcart. unfold cartPatterns. cbn [In]. auto. }
  assert (H2 : includes url (str "/gp/cart") = true → isCartPage (Some url) = true).
  { apply Hcart. unfold cartPatterns. cbn [In]. auto. }
  assert (H3 : includes url (str "/viewcart") = true → isCartPage (Some url) = true).
  { apply Hcart. unfold cartPatterns. cbn [In]. auto. }
  assert (H4 : includes url (str "/basket") = true → isCartPage (Some url) = true).
  { apply Hcart. unfold cartPatterns. cbn [In]. auto. }
  clear Hcart.
  destruct (includes hostname (str "amazon")) eqn:E1.
  { destruct (includes url (str "/gp/cart")) eqn:Ea;
      [|destruct (includes url (str "/cart")) eqn:Eb; [|discriminate H]];
      injection H as <-; (split_and!; [apply list_elem_of_In; left; reflexivity
                                     | exact E1 | auto]). }
  destruct (includes hostname (str "flipkart")) eqn:E2.
  { destruct (includes url (str "/viewcart")) eqn:Ea;
      [|destruct (includes url (str "/cart")) eqn:Eb; [|discriminate H]];
      injection H as <-; (split_and!; [apply list_elem_of_In; right; left; reflexivity
                                     | exact E2 | auto]). }
  destruct (includes hostname (str "bigbasket")) eqn:E3.
  { destruct (includes url (str "/basket")) eqn:Ea;
      [|destruct (includes url (str "/cart")) eqn:Eb; [|discriminate H]];
      injection H as <-; (split_and!; [apply list_elem_of_In; do 2 right; left; reflexivity
                                     | exact E3 | auto]). }
  destruct (includes hostname (str "swiggy")) eqn:E4.
  { destruct (includes url (str "/instamart")) eqn:Ea; [|discriminate H].
    destruct (includes url (str "/cart")) eqn:Eb; [|discriminate H].
    injection H as <-. split_and!; [apply list_elem_of_In; do 3 right; left; reflexivity
                                   | exact E4 | auto]. }
  destruct (includes hostname (str "walmart")) eqn:E5.
  { destruct (includes url (str "/cart")) eqn:Eb; [|discriminate H].
    injection H as <-. split_and!; [apply list_elem_of_In; do 4 right; left; reflexivity
                                   | exact E5 | auto]. }
  destruct (includes hostname (str "target")) eqn:E6; [|discriminate H].
  destruct (includes url (str "/cart")) eqn:Eb; [|discriminate H].
  injection H as <-. split_and!; [apply list_elem_of_In; do 5 right; left; reflexivity
                                 | exact E6 | auto].
Qed.

Lemma detectPlatform_isCartPage_witness :
  isCartPage (Some (str "https://www.bigbasket.com/basket/")) = true.
Proof.
  exact (proj2 (proj2 (detectPlatform_isCartPage
                         (str "https://www.bigbasket.com/basket/")
                         (str "www.bigbasket.com") bigbasket eq_refl))).
Defined.

(** ** When an injection attempt fails, and the retry budget *)

Lemma tryInjectButton_false_same currentPlatform doc :
  (tryInjectButton currentPlatform doc).2 = false →
  (tryInjectButton currentPlatform doc).1 = doc.
Proof.
  destruct (tryInjectButton_cases currentPlatform doc) as [E|(_ & Hok & _)]; [done|].
  rewrite Hok. discriminate.
Qed.

(** X13: an attempt reports failure exactly when the page holds no
    trigger control and either no platform is set or the page offers
    neither a candidate element nor a [body]; a failed attempt leaves the
    page as it was. *)
Theorem tryInjectButton_fails (currentPlatform : option Platform) (doc : Node) :
  ((tryInjectButton currentPlatform doc).2 = false
   ↔ triggerControls doc = []
     ∧ (currentPlatform = None
        ∨ (findTarget targets doc = None ∧ document_body doc = None)))
  ∧ ((tryInjectButton currentPlatform doc).2 = false →
     (tryInjectButton currentPlatform doc).1 = doc).
Proof.
  unfold tryInjectButton, document_querySelector. fold (triggerControls doc).
  destruct (triggerControls doc) as [|l0 ls]; cbn [head].
  - destruct currentPlatform as [platform|].
    + destruct (findTarget targets doc) as [l|].
      * split; [|done]. cbn [snd]. split; [done|]. intros [_ [?|[? _]]]; done.
      * destruct (document_body doc) as [l|]; cbn [fst snd].
        -- split; [|done]. split; [done|]. intros [_ [?|[_ ?]]]; done.
        -- split; [|done]. split; [|done]. intros _. by split; [|right].
    + destruct (match findTarget targets doc with
                | Some l => Some l | None => document_body doc end);
        cbn [fst snd]; (split; [|done]); (split; [|done]); intros _; by split; [|left].
  - cbn [fst snd]. split; [|done]. split; [done|]. by intros [? _].
Qed.

Lemma waitForPageAndInject_timer c doc c' doc' :
  waitForPageAndInject c doc = (c', doc', true) →
  (retryCount c < maxRetries c)%nat
  ∧ retryCount c' = S (retryCount c)
  ∧ maxRetries c' = maxRetries c
  ∧ currentPlatform c' = currentPlatform c
  ∧ doc' = doc.
Proof.
  unfold waitForPageAndInject.
  destruct (Nat.leb_spec (maxRetries c) (retryCount c)) as [Hle|Hlt]; [by intros [=]|].
  pose proof (tryInjectButton_false_same (currentPlatform c) doc) as Hsame.
  destruct (tryInjectButton (currentPlatform c) doc) as [d ok].
  destruct ok; [by intros [=]|]. intros [= <- <-]. simpl in *.
  by rewrite Hsame.
Qed.

Lemma waitForPageAndInject_done c doc c' doc' :
  waitForPageAndInject c doc = (c', doc', false) → c' = c.
Proof.
  unfold waitForPageAndInject.
  destruct (maxRetries c <=? retryCount c)%nat; [by intros [= <- _]|].
  destruct (tryInjectButton (currentPlatform c) doc) as [d ok].
  destruct ok; by intros [=].
Qed.

(** X14: the retry budget.  However the page looks each time a timer
    fires, a chain of calls of [waitForPageAndInject] sets at most
    [maxRetries - retryCount] timers, makes at most one call more than
    that, never raises [retryCount] above [maxRetries], and has stopped
    by then; every call that sets a timer leaves the page untouched. *)
Theorem retryChain_budget (c : Content) (pages : list Node) :
  (retryCount c ≤ maxRetries c)%nat →
  (retryCount (retryChain c pages).1.1 ≤ maxRetries c)%nat
  ∧ maxRetries (retryChain c pages).1.1 = maxRetries c
  ∧ (length (retryChain c pages).1.2 ≤ S (maxRetries c - retryCount c))%nat
  ∧ ((maxRetries c - retryCount c < length pages)%nat →
     (retryChain c pages).2 = false)
  ∧ ((retryChain c pages).2 = true → (retryChain c pages).1.2 = pages).
Proof.
  revert c. induction pages as [|doc pages IH]; intros c Hle.
  - simpl. split_and!; try done; lia.
  - simpl. destruct (waitForPageAndInject c doc) as [[c' doc'] timer] eqn:E.
    destruct timer.
    + apply waitForPageAndInject_timer in E as (Hlt & Hc & Hm & _ & ->).
      specialize (IH c'). rewrite Hc, Hm in IH.
      destruct IH as (H1 & H2 & H3 & H4 & H5); [lia|].
      destruct (retryChain c' pages) as [[c'' docs] pending]. simpl in *.
      split_and!; try done; try lia.
      * intros Hlen. apply H4. lia.
      * intros Hp. by rewrite H5.
    + apply waitForPageAndInject_done in E as ->. simpl.
      split_and!; try done; lia.
Qed.

(** A page that never offers anything, looked at ten times. *)
Lemma retryChain_budget_witness :
  retryCount (retryChain (newContent None) (replicate 10 sample_page)).1.1 = 5%nat
  ∧ length (retryChain (newContent None) (replicate 10 sample_page)).1.2 = 6%nat
  ∧ (retryChain (newContent None) (replicate 10 sample_page)).2 = false.
Proof.
  destruct (retryChain_budget (newContent None) (replicate 10 sample_page))
    as (_ & _ & _ & H & _).
  - simpl. lia.
  - split; [reflexivity|]. split; [reflexivity|]. apply H. simpl. lia.
Defined.

(** ** Where the button goes *)

Lemma nodeAt_appendChildAt path child n tag attrs children :
  nodeAt path n = Some (Element tag attrs children) →
  nodeAt path (appendChildAt path child n)
  = Some (Element tag attrs (children ++ [child])).
Proof.
  revert path. induction n as [data|t a ks IH] using Node_forall_ind; intros path Hat.
  - destruct path; simpl in Hat; discriminate.
  - destruct path as [|i path'].
    + simpl in *. by injection Hat as -> -> ->.
    + rewrite appendChildAt_cons. simpl in *.
      revert i Hat. induction IH as [|k ks' Hk _ IHks]; intros i Hat; [done|].
      destruct i as [|i]; simpl in *; [by apply Hk | by apply IHks].
Qed.

(** X15: a successful injection only adds.  On a page without a trigger
    control, the button becomes the last child of the first candidate
    element found, or of [body] when there is none; the element keeps its
    tag, attributes and earlier children; and for any test on tag and
    attributes, the elements of the page passing it are those that passed
    before plus those of the button. *)
Theorem tryInjectButton_appends (platform : Platform) (doc : Node) :
  triggerControls doc = [] →
  is_Some (findTarget targets doc) ∨ is_Some (document_body doc) →
  ∃ l,
    (findTarget targets doc = Some l
     ∨ (findTarget targets doc = None ∧ document_body doc = Some l))
    ∧ nodeAt (loc_path l) doc = Some (loc_node l)
    ∧ nodeAt (loc_path l) (tryInjectButton (Some platform) doc).1
      = Some (Element (loc_tag l) (loc_attrs l)
                (loc_children l ++ [createAnalyzeButton platform]))
    ∧ (∀ P, countElements P (tryInjectButton (Some platform) doc).1
            = (countElements P doc + countElements P (createAnalyzeButton platform))%nat).
Proof.
  intros Hnone Htarget. unfold tryInjectButton, document_querySelector.
  fold (triggerControls doc). rewrite Hnone. cbn [head].
  assert (Hl : ∃ l, (findTarget targets doc = Some l
                     ∨ (findTarget targets doc = None ∧ document_body doc = Some l))
                    ∧ match findTarget targets doc with
                      | Some l => Some l | None => document_body doc end = Some l).
  { destruct (findTarget targets doc) as [l|].
    - exists l. by split; [left|].
    - destruct Htarget as [[l [=]]|[l Hb]]. exists l. by split; [right|]. }
  destruct Hl as (l & Hwhich & ->). cbn [fst].
  assert (Hat : nodeAt (loc_path l) doc = Some (loc_node l)).
  { destruct Hwhich as [Hf|[_ Hb]];
      [by eapply findTarget_nodeAt | by apply document_body_nodeAt]. }
  exists l. split_and!; [done|done| |].
  - by apply nodeAt_appendChildAt.
  - intros P. by eapply countElements_append.
Qed.

Lemma tryInjectButton_appends_witness :
  ∃ l, loc_path l = [1; 0]%nat
    ∧ nodeAt [1; 0]%nat (tryInjectButton (Some amazon) sample_page).1
      = Some (Element (loc_tag l) (loc_attrs l)
                (loc_children l ++ [createAnalyzeButton amazon])).
Proof.
  destruct (tryInjectButton_appends amazon sample_page) as (l & Hw & _ & H & _).
  - reflexivity.
  - left. vm_compute. eexists. reflexivity.
  - exists l.
    assert (Hp : loc_path l = [1; 0]%nat).
    { destruct Hw as [Hf|[Hf _]]; [|vm_compute in Hf; discriminate Hf].
      vm_compute in Hf. injection Hf as <-. reflexivity. }
    split; [exact Hp|]. rewrite <- Hp. exact H.
Defined.

(** ** From a click to the request *)

Lemma scrapeCartItems_currency cp hostname doc item :
  item ∈ scrapeCartItems cp hostname doc → currency item = detectCurrency hostname.
Proof.
  destruct cp as [platform|]; simpl; [|by intros H; apply elem_of_nil in H].
  intros Hin. apply list_elem_of_omap in Hin as (row & _ & Hrow).
  unfold scrapeRow in Hrow. repeat case_match; try discriminate.
  by injection Hrow as <-.
Qed.

(** X16: a click on the button, followed through to the service worker.
    With no item scraped nothing is sent and the notification says so.
    Otherwise the message carries the host name and the scraped items,
    and, the tab not being loading, the listener makes exactly one
    request: to the endpoint, with that host name and those items, and
    with a user context that matches the items' currency, India with
    560001 for INR, the United States with 90210 for USD. *)
Theorem handleAnalyzeClick_request (currentPlatform : option Platform)
    (hostname : jsstring) (doc : Node) (st : State) (t : Z) :
  t ≠ 0 →
  isLoadingTab st t = false →
  match sent (handleAnalyzeClick currentPlatform hostname doc) with
  | None =>
      scrapeCartItems currentPlatform hostname doc = []
      ∧ shown (handleAnalyzeClick currentPlatform hostname doc)
        = {| n_message := str "No items found in cart"; n_type := str "error" |}
  | Some cartData =>
      scrapeCartItems currentPlatform hostname doc ≠ []
      ∧ cartData = {| sourceRetailer := hostname;
                      items := scrapeCartItems currentPlatform hostname doc |}
      ∧ ∃ request,
          fetched (onAnalyzeCart cartData (Some t) st) = fetched st ++ [request]
          ∧ req_url request = API_ENDPOINT
          ∧ p_sourceRetailer (req_body request) = hostname
          ∧ p_items (req_body request) = scrapeCartItems currentPlatform hostname doc
          ∧ ((p_userContext (req_body request)
              = {| country := str "IN"; postalCode := str "560001" |}
              ∧ ∀ item, item ∈ p_items (req_body request) → currency item = str "INR")
             ∨ (p_userContext (req_body request)
                = {| country := str "US"; postalCode := str "90210" |}
                ∧ ∀ item, item ∈ p_items (req_body request) → currency item = str "USD"))
  end.
Proof.
  intros Hnz Hl. unfold handleAnalyzeClick.
  pose proof (scrapeCartItems_currency currentPlatform hostname doc) as Hcur.
  destruct (scrapeCartItems currentPlatform hostname doc) as [|item0 rest] eqn:E;
    cbn [sent shown]; [done|].
  split_and!; [done|done|].
  exists (requestFor {| sourceRetailer := hostname; items := item0 :: rest |}).
  split_and!; try done.
  - unfold onAnalyzeCart. rewrite truthyTab_nonzero by done.
    unfold analyzeCart. by rewrite Hl.
  - cbn [requestFor req_body p_userContext p_items sourceRetailer items].
    unfold userContextOf, detectCurrency in *.
    destruct (includes hostname (str ".in")); [left|right]; by split.
Qed.

Lemma handleAnalyzeClick_request_witness :
  ∃ cartData,
    sent (handleAnalyzeClick (Some amazon) (str "www.amazon.in") sample_page)
      = Some cartData
    ∧ length (items cartData) = 2%nat
    ∧ length (fetched (onAnalyzeCart cartData (Some 7) completed7)) = 2%nat.
Proof.
  pose proof (handleAnalyzeClick_request (Some amazon) (str "www.amazon.in")
                sample_page completed7 7) as H.
  destruct (sent (handleAnalyzeClick (Some amazon) (str "www.amazon.in") sample_page))
    as [cartData|] eqn:E.
  - destruct H as (_ & Hc & request & Hf & _); [lia | reflexivity |].
    exists cartData. split; [reflexivity|]. split.
    + rewrite Hc. vm_compute. reflexivity.
    + rewrite Hf, length_app. reflexivity.
  - vm_compute in E. discriminate E.
Defined.

(** ** A tab that never asked *)

Lemma untouched_step ev st st' :
  (∀ t, loadingStates st !! t = None →
        analysisResults st !! t = None ∧ analysisErrors st !! t = None) →
  step ev st = Some st' →
  ∀ t, loadingStates st' !! t = None →
       analysisResults st' !! t = None ∧ analysisErrors st' !! t = None.
Proof.
  intros H Hs t. destruct ev as [payload sender|active|t0 status|t0 o|t0 o]; simpl in Hs.
  - injection Hs as <-. unfold onAnalyzeCart.
    destruct (truthyTab sender) as [t1|]; [|apply H]. unfold analyzeCart.
    destruct (isLoadingTab st t1); simpl; [apply H|].
    rewrite lookup_insert. case_decide; [discriminate|].
    rewrite !lookup_delete_ne by done. apply H.
  - injection Hs as <-. apply H.
  - injection Hs as <-. unfold onUpdated.
    destruct status as [s|]; [|apply H]. case_decide; apply H.
  - unfold analyzeCart_afterFetch in Hs.
    destruct o as [status text|e]; [destruct (response_ok status)|];
      match type of Hs with
      | context [resume ?a ?b ?c ?d] => destruct (resume a b c d) as [l|]
      end; simpl in Hs; try discriminate; injection Hs as <-; simpl;
      try apply H; rewrite lookup_insert; (case_decide; [discriminate|]);
      rewrite lookup_insert_ne by done; apply H.
  - unfold analyzeCart_afterJson in Hs.
    destruct (resume t0 AwaitingJson None (suspended st)) as [l|];
      simpl in Hs; [|discriminate].
    destruct o; injection Hs as <-; simpl; rewrite lookup_insert;
      (case_decide; [discriminate|]); rewrite lookup_insert_ne by done; apply H.
Qed.

Lemma reachable_untouched st t :
  reachable st → loadingStates st !! t = None →
  analysisResults st !! t = None ∧ analysisErrors st !! t = None.
Proof.
  intros [evs Hr]. revert t.
  assert (H0 : ∀ t, loadingStates initial !! t = None →
            analysisResults initial !! t = None ∧ analysisErrors initial !! t = None).
  { intros t _. simpl. by rewrite !lookup_empty. }
  revert H0 Hr. generalize initial. induction evs as [|ev evs IH]; intros s0 H0 Hr.
  - by injection Hr as <-.
  - simpl in Hr. destruct (step ev s0) as [s1|] eqn:E; [|discriminate]. simpl in Hr.
    eapply IH; [|exact Hr]. by eapply untouched_step.
Qed.

(** X17: the three [Map]s gain an entry for a tab only through a request
    of that tab.  In every reachable state, a tab for which no request
    was ever accepted (no loading flag recorded) has an empty snapshot:
    not loading, no result, no error. *)
Theorem snapshot_of_untouched_tab (st : State) (t : Z) :
  reachable st →
  t ≠ 0 →
  loadingStates st !! t = None →
  getAnalysisResult (Some t) st
  = {| isLoading := false; result := None; error := None |}.
Proof.
  intros Hr Hnz Hl. destruct (reachable_untouched st t Hr Hl) as [Hres Herr].
  unfold getAnalysisResult, isLoadingTab. rewrite truthyTab_nonzero by done.
  by rewrite Hl, Hres, Herr.
Qed.

Lemma snapshot_of_untouched_tab_witness :
  getAnalysisResult (Some 9) completed7
  = {| isLoading := false; result := None; error := None |}.
Proof.
  apply snapshot_of_untouched_tab.
  - exists [AnalyzeCartMessage sample_cart (Some 7);
            FetchSettled 7 (FetchResponse 200 (str "OK"));
            JsonSettled 7 (JsonParsed sample_result)].
    reflexivity.
  - lia.
  - reflexivity.
Defined.

(** ** What the popup shows *)

Lemma analyzeCart_success_state st t r :
  Inv st → (t, AwaitingJson) ∈ suspended st →
  ∃ st', step (JsonSettled t (JsonParsed r)) st = Some st'
    ∧ analysisResults st' !! t = Some r
    ∧ analysisErrors st' !! t = None
    ∧ isLoadingTab st' t = false
    ∧ t ≠ 0.
Proof.
  intros HI Hin.
  destruct (resume_elem t AwaitingJson None _ Hin) as [l Hl].
  destruct (resume_Some _ _ _ _ _ Hl) as (l1 & l2 & E & ->).
  destruct (suspended_split_fresh _ _ _ _ _ HI E) as (_ & Hmem & _).
  assert (Hsusp : t ∈ (suspended st).*1) by (apply Hmem; by left).
  assert (Hload : isLoadingTab st t = true) by by apply (inv_loading _ HI).
  destruct (inv_cleared _ HI _ Hload) as [_ Herr].
  eexists. split; [simpl; unfold analyzeCart_afterJson; by rewrite Hl|].
  split_and!.
  - simpl. apply lookup_insert_eq.
  - exact Herr.
  - rewrite isLoadingTab_success. by destruct (decide _).
  - by apply (inv_nonzero _ HI).
Qed.

(** X18: the popup on a cart page, for the active tab [t], against the
    state of the service worker.  While the tab's call is in flight it
    shows the loading view; once the call has failed, the error view with
    the stored message; once it has succeeded, the results, unless the
    body was a falsy JSON value ([null], [false], [0], the empty string),
    which it shows as no analysis; for a tab that never asked, no
    analysis.  Off a cart page it shows the not-a-cart-page view whatever
    the session holds. *)
Theorem popup_view (st : State) (t : Z) (url : jsstring) :
  reachable st →
  isCartPage (Some url) = true →
  (isLoadingTab st t = true →
     popup_init (Some {| tab_id := Some t; tab_url := Some url |}) None
       (getAnalysisResult (Some t) st) = LoadingView)
  ∧ (∀ stage ev e, (t, stage) ∈ suspended st → CallFails t stage ev e →
       ∃ st', step ev st = Some st'
         ∧ popup_init (Some {| tab_id := Some t; tab_url := Some url |}) None
             (getAnalysisResult (Some t) st') = ErrorView (message e))
  ∧ (∀ r, (t, AwaitingJson) ∈ suspended st →
       ∃ st', step (JsonSettled t (JsonParsed r)) st = Some st'
         ∧ popup_init (Some {| tab_id := Some t; tab_url := Some url |}) None
             (getAnalysisResult (Some t) st')
           = if truthy r then ResultsView r else NoAnalysisView)
  ∧ (t ≠ 0 → loadingStates st !! t = None →
       popup_init (Some {| tab_id := Some t; tab_url := Some url |}) None
         (getAnalysisResult (Some t) st) = NoAnalysisView)
  ∧ (∀ url' lastError response,
       isCartPage url' = false →
       popup_init (Some {| tab_id := Some t; tab_url := url' |}) lastError response
       = NotCartPageView).
Proof.
  intros Hr Hcart. pose proof (reachable_Inv _ Hr) as HI.
  unfold popup_init. cbn [mbind option_bind tab_url]. rewrite Hcart. split_and!.
  - intros Hl.
    assert (Hnz : t ≠ 0) by (apply (inv_nonzero _ HI), (inv_loading _ HI), Hl).
    unfold getAnalysisResult. rewrite truthyTab_nonzero by done.
    unfold getAnalysisResults. cbn [isLoading]. by rewrite Hl.
  - intros stage ev e Hin Hf.
    destruct (analyzeCart_failure_state st t stage ev e HI Hin Hf)
      as (st' & Hs & Herr & Hres & Hload & _ & _ & Hnz).
    exists st'. split; [done|].
    unfold getAnalysisResult. rewrite truthyTab_nonzero by done.
    unfold getAnalysisResults. cbn [isLoading error result].
    rewrite Hload, Herr. pose proof (CallFails_message _ _ _ _ Hf) as Hne.
    by destruct (message e).
  - intros r Hin.
    destruct (analyzeCart_success_state st t r HI Hin)
      as (st' & Hs & Hres & Herr & Hload & Hnz).
    exists st'. split; [done|].
    unfold getAnalysisResult. rewrite truthyTab_nonzero by done.
    unfold getAnalysisResults. cbn [isLoading error result].
    by rewrite Hload, Herr, Hres.
  - intros Hnz Hl. destruct (reachable_untouched st t Hr Hl) as [Hres Herr].
    unfold getAnalysisResult, isLoadingTab. rewrite truthyTab_nonzero by done.
    unfold getAnalysisResults. cbn [isLoading error result].
    by rewrite Hl, Herr, Hres.
  - intros url' lastError response Hno. cbn [mbind option_bind tab_url]. by rewrite Hno.
Qed.

Lemma popup_view_witness :
  popup_init (Some {| tab_id := Some 7;
                      tab_url := Some (str "https://www.amazon.in/gp/cart/view.html") |})
    None (getAnalysisResult (Some 7) requesting7) = LoadingView.
Proof.
  destruct (popup_view requesting7 7 (str "https://www.amazon.in/gp/cart/view.html"))
    as (H & _).
  - exact requesting7_reachable.
  - reflexivity.
  - apply H. reflexivity.
Defined.

(** ** Start-up of the content script *)

(** X19: [init].  On a page that no platform matches a new object is left
    as it was: nothing injected, no timer, not initialized.  An
    initialized object ignores [init].  On a page that a platform matches
    the object becomes initialized whether or not the first attempt
    succeeds; when the page holds no trigger control and offers an element
    to append to, it ends with the platform recorded, exactly one trigger
    control, no timer, and any later [init] changes nothing. *)
Theorem init_once (url hostname : jsstring) (doc : Node) :
  (detectPlatform url hostname = None →
     init url hostname newContentScript doc = (newContentScript, doc, false))
  ∧ (∀ cs, isInitialized cs = true → init url hostname cs doc = (cs, doc, false))
  ∧ (∀ p, detectPlatform url hostname = Some p →
       isInitialized (init url hostname newContentScript doc).1.1 = true)
  ∧ (∀ p, detectPlatform url hostname = Some p →
       triggerControls doc = [] →
       is_Some (findTarget targets doc) ∨ is_Some (document_body doc) →
       ∃ cs' doc',
         init url hostname newContentScript doc = (cs', doc', false)
         ∧ cs' = {| isInitialized := true; fields := newContent (Some p) |}
         ∧ length (triggerControls doc') = 1%nat
         ∧ ∀ url2 hostname2, init url2 hostname2 cs' doc' = (cs', doc', false)).
Proof.
  split_and!.
  - intros Hd. unfold init. cbn [isInitialized newContentScript fields]. by rewrite Hd.
  - intros cs Hi. unfold init. by rewrite Hi.
  - intros p Hd. unfold init. cbn [isInitialized newContentScript fields].
    rewrite Hd. by destruct (waitForPageAndInject _ doc) as [[c2 doc'] timer].
  - intros p Hd Hnone Htarget. unfold init.
    cbn [isInitialized newContentScript fields]. rewrite Hd.
    destruct (tryInjectButton_absent p doc Hnone Htarget) as (l & Hat & E1).
    change {| currentPlatform := Some p;
              retryCount := retryCount (newContent None);
              maxRetries := maxRetries (newContent None) |}
      with (newContent (Some p)).
    unfold waitForPageAndInject. cbn [maxRetries retryCount newContent currentPlatform].
    change (5 <=? 0)%nat with false. cbv iota. rewrite E1.
    eexists _, _. split_and!; [reflexivity|reflexivity| |by intros].
    rewrite triggerControls_count.
    erewrite countElements_append by exact Hat.
    by rewrite <- triggerControls_count, Hnone, createAnalyzeButton_one_trigger.
Qed.

Lemma init_once_witness :
  ∃ cs' doc',
    init (str "https://www.amazon.in/gp/cart/view.html") (str "www.amazon.in")
      newContentScript sample_page = (cs', doc', false)
    ∧ isInitialized cs' = true
    ∧ length (triggerControls doc') = 1%nat.
Proof.
  destruct (init_once (str "https://www.amazon.in/gp/cart/view.html")
              (str "www.amazon.in") sample_page) as (_ & _ & _ & H).
  destruct (H amazon) as (cs' & doc' & H1 & H2 & H3 & _).
  - reflexivity.
  - reflexivity.
  - left. vm_compute. eexists. reflexivity.
  - exists cs', doc'. split; [exact H1|]. split; [by rewrite H2 | exact H3].
Defined.
